(** * IT-events bot: event store, relevance classifier and resource extractor

    A shallow embedding of [database.py], [event_classifier.py],
    [event_parser.py] and the constants of [config.py], followed by the
    properties of the event life cycle proved about them.

    Conventions of the embedding.
    - A Python [str] is the list of its code points ([PyStr.str]); literals
      are written as UTF-8 text and decoded by [PyStr.py].
    - A [datetime] is an instant counted in microseconds ([Z]);
      [timedelta(hours=h)] is [h * 3_600_000_000].
    - A table is the list of its rows in insertion (rowid) order;
      [query.filter_by(...).first()] is [find] on that list.
    - [datetime.utcnow()] is read by the code; here the instant read is an
      explicit argument [now].
    - A Python [float] is a binary64 value ([PrimFloat.float]).
    - Fallible library calls return in the error monad [exn + _] of ExtLib;
      [try ... except Exception] is [catch]. *)

From Stdlib Require Import ZArith NArith List String Ascii Bool Lia.
From Stdlib Require Import Floats Uint63.
From ExtLib Require Import Structures.Monad Structures.MonadExc.
From ExtLib Require Import Data.Monads.EitherMonad.
Import ListNotations.
Import MonadNotation.
Local Open Scope monad_scope.

Set Warnings "-inexact-float".

(** ** Python strings *)

Module PyStr.

Definition str := list N.

(** Decoding of the UTF-8 bytes of a literal into code points. *)
Fixpoint utf8_decode (bs : list N) : str :=
  match bs with
  | [] => []
  | b :: r =>
    if (b <? 128)%N then b :: utf8_decode r
    else if (b <? 224)%N then
      match r with
      | c1 :: r1 => ((b mod 32) * 64 + c1 mod 64)%N :: utf8_decode r1
      | _ => []
      end
    else if (b <? 240)%N then
      match r with
      | c1 :: c2 :: r2 =>
        ((b mod 16) * 4096 + (c1 mod 64) * 64 + c2 mod 64)%N :: utf8_decode r2
      | _ => []
      end
    else
      match r with
      | c1 :: c2 :: c3 :: r3 =>
        ((b mod 8) * 262144 + (c1 mod 64) * 4096 + (c2 mod 64) * 64 + c3 mod 64)%N
          :: utf8_decode r3
      | _ => []
      end
  end.

Definition py (s : string) : str :=
  utf8_decode (map N_of_ascii (list_ascii_of_string s)).

Fixpoint eqb (a b : str) : bool :=
  match a, b with
  | [], [] => true
  | x :: a', y :: b' => (x =? y)%N && eqb a' b'
  | _, _ => false
  end.

(** [s.startswith(p)] *)
Fixpoint startswith (s p : str) {struct p} : bool :=
  match p, s with
  | [], _ => true
  | _ :: _, [] => false
  | x :: p', y :: s' => (x =? y)%N && startswith s' p'
  end.

(** [k in s] for two strings: [k] occurs in [s] as a contiguous run. *)
Fixpoint contains (k s : str) : bool :=
  startswith s k ||
  match s with
  | [] => false
  | _ :: s' => contains k s'
  end.

(** [str.isspace] on one code point: the code points CPython's
    [Py_UNICODE_ISSPACE] accepts; [strip()] and [split()] use it. *)
Definition isspace (c : N) : bool :=
  ((9 <=? c) && (c <=? 13) || (28 <=? c) && (c <=? 32) || (c =? 133) ||
   (c =? 160) || (c =? 5760) || (8192 <=? c) && (c <=? 8202) || (c =? 8232) ||
   (c =? 8233) || (c =? 8239) || (c =? 8287) || (c =? 12288))%N.

Fixpoint lstrip (s : str) : str :=
  match s with
  | [] => []
  | c :: r => if isspace c then lstrip r else s
  end.

Definition strip (s : str) : str := rev (lstrip (rev (lstrip s))).

(** [s.split()] with no argument: the maximal runs of non-space code points.
    [cur] is the run being read, last code point first. *)
Fixpoint split_from (cur : str) (s : str) : list str :=
  match s with
  | [] => match cur with [] => [] | _ => [rev cur] end
  | c :: r =>
    if isspace c
    then match cur with [] => split_from [] r | _ => rev cur :: split_from [] r end
    else split_from (c :: cur) r
  end.

Definition split (s : str) : list str := split_from [] s.

(** [bool(s)] for an optional string: [None] and [''] are false. *)
Definition truthy (o : option str) : bool :=
  match o with
  | Some (_ :: _) => true
  | _ => false
  end.

(** [str.lower] and [str.upper] are the interpreter's Unicode case mappings;
    the embedding takes them as an interface. *)
Class CaseMap := { lower : str -> str; upper : str -> str }.

(** An instance that agrees with CPython on ASCII and on the Russian
    alphabet (U+0410..U+044F, U+0401, U+0451) and leaves every other code
    point as it is. *)
Definition lower_cp (c : N) : N :=
  (if (65 <=? c) && (c <=? 90) then c + 32
   else if (1040 <=? c) && (c <=? 1071) then c + 32
   else if c =? 1025 then 1105
   else c)%N.

Definition upper_cp (c : N) : N :=
  (if (97 <=? c) && (c <=? 122) then c - 32
   else if (1072 <=? c) && (c <=? 1103) then c - 32
   else if c =? 1105 then 1025
   else c)%N.

Definition basic_case : CaseMap :=
  {| lower := map lower_cp; upper := map upper_cp |}.

End PyStr.

Import PyStr.

(** ** database.py: the data model *)

Definition datetime := Z.
Bind Scope Z_scope with datetime.

(** [timedelta(hours=h)] in microseconds. *)
Definition timedelta_hours (h : Z) : Z := (h * 3600000000)%Z.

Record Resource := {
  r_id : Z;
  r_name : str;
  r_url : str;
  r_type : str;
  r_created_at : datetime;
  r_is_active : bool
}.

Record Event := {
  e_id : Z;
  e_resource_id : Z;
  e_title : str;
  e_description : option str;
  e_event_date : datetime;
  e_location : option str;
  e_url : option str;
  e_created_at : datetime;
  e_notified : bool
}.

Record User := {
  u_id : Z;
  u_telegram_id : Z;
  u_username : option str;
  u_first_name : option str;
  u_last_name : option str;
  u_is_subscribed : bool;
  u_created_at : datetime
}.

Record EventRegistration := {
  g_id : Z;
  g_user_id : Z;
  g_event_id : Z;
  g_registered_at : datetime;
  g_reminder_1day_sent : bool;
  g_reminder_1hour_sent : bool
}.

Record Admin := {
  a_id : Z;
  a_telegram_id : Z;
  a_created_at : datetime
}.

(** The five tables behind a [Database]. *)
Record DB := {
  resources : list Resource;
  events : list Event;
  users : list User;
  registrations : list EventRegistration;
  admins : list Admin
}.

Definition empty_db : DB :=
  {| resources := []; events := []; users := []; registrations := []; admins := [] |}.

Definition with_resources (db : DB) (l : list Resource) : DB :=
  {| resources := l; events := events db; users := users db;
     registrations := registrations db; admins := admins db |}.

Definition with_events (db : DB) (l : list Event) : DB :=
  {| resources := resources db; events := l; users := users db;
     registrations := registrations db; admins := admins db |}.

Definition with_users (db : DB) (l : list User) : DB :=
  {| resources := resources db; events := events db; users := l;
     registrations := registrations db; admins := admins db |}.

Definition with_registrations (db : DB) (l : list EventRegistration) : DB :=
  {| resources := resources db; events := events db; users := users db;
     registrations := l; admins := admins db |}.

Definition with_admins (db : DB) (l : list Admin) : DB :=
  {| resources := resources db; events := events db; users := users db;
     registrations := registrations db; admins := l |}.

(** The integer primary key of an inserted row: one more than the largest
    key of the table (1 for an empty table). *)
Definition next_id (ids : list Z) : Z := (1 + fold_right Z.max 0 ids)%Z.

(** [row = query.first(); if row: <assign fields>; commit()]: the first row
    that satisfies [p] is replaced by [f row]; every other row stays. *)
Fixpoint update_first {A : Type} (p : A -> bool) (f : A -> A) (l : list A) : list A :=
  match l with
  | [] => []
  | x :: r => if p x then f x :: r else x :: update_first p f r
  end.

(** ** database.py: the operations of [Database]

    Every operation opens its own session, commits at most once and closes
    the session; it is a function from the tables before to the tables
    after, paired with the value returned. *)

Definition add_admin (db : DB) (now : datetime) (telegram_id : Z) : DB * bool :=
  match find (fun a => (a_telegram_id a =? telegram_id)%Z) (admins db) with
  | Some _ => (db, false)
  | None =>
    let admin := {| a_id := next_id (map a_id (admins db));
                    a_telegram_id := telegram_id;
                    a_created_at := now |} in
    (with_admins db (admins db ++ [admin]), true)
  end.

Definition is_admin (db : DB) (telegram_id : Z) : bool :=
  match find (fun a => (a_telegram_id a =? telegram_id)%Z) (admins db) with
  | Some _ => true
  | None => false
  end.

(** The assignments of the [else] branch of [get_or_create_user]: a field is
    overwritten when the argument is truthy. *)
Definition refresh_field (new old : option str) : option str :=
  if truthy new then new else old.

Definition get_or_create_user (db : DB) (now : datetime) (telegram_id : Z)
    (username first_name last_name : option str) : DB * User :=
  match find (fun u => (u_telegram_id u =? telegram_id)%Z) (users db) with
  | None =>
    let user := {| u_id := next_id (map u_id (users db));
                   u_telegram_id := telegram_id;
                   u_username := username;
                   u_first_name := first_name;
                   u_last_name := last_name;
                   u_is_subscribed := true;
                   u_created_at := now |} in
    (with_users db (users db ++ [user]), user)
  | Some user =>
    let user' := {| u_id := u_id user;
                    u_telegram_id := u_telegram_id user;
                    u_username := refresh_field username (u_username user);
                    u_first_name := refresh_field first_name (u_first_name user);
                    u_last_name := refresh_field last_name (u_last_name user);
                    u_is_subscribed := u_is_subscribed user;
                    u_created_at := u_created_at user |} in
    (with_users db
       (update_first (fun u => (u_telegram_id u =? telegram_id)%Z) (fun _ => user') (users db)),
     user')
  end.

Definition add_resource (db : DB) (now : datetime) (name url resource_type : str)
    : DB * Resource :=
  let resource := {| r_id := next_id (map r_id (resources db));
                     r_name := name;
                     r_url := url;
                     r_type := resource_type;
                     r_created_at := now;
                     r_is_active := true |} in
  (with_resources db (resources db ++ [resource]), resource).

Definition get_active_resources (db : DB) : list Resource :=
  filter r_is_active (resources db).

(** The [filter_by] of [add_event]: the dedup key of an event. *)
Definition same_key (resource_id : Z) (title : str) (event_date : datetime)
    (e : Event) : bool :=
  (e_resource_id e =? resource_id)%Z && PyStr.eqb (e_title e) title &&
  (e_event_date e =? event_date)%Z.

Definition add_event (db : DB) (now : datetime) (resource_id : Z) (title : str)
    (description : option str) (event_date : datetime)
    (location url : option str) : DB * option Event :=
  match find (same_key resource_id title event_date) (events db) with
  | Some _ => (db, None)
  | None =>
    let event := {| e_id := next_id (map e_id (events db));
                    e_resource_id := resource_id;
                    e_title := title;
                    e_description := description;
                    e_event_date := event_date;
                    e_location := location;
                    e_url := url;
                    e_created_at := now;
                    e_notified := false |} in
    (with_events db (events db ++ [event]), Some event)
  end.

Definition get_unnotified_events (db : DB) : list Event :=
  filter (fun e => negb (e_notified e)) (events db).

Definition set_notified (e : Event) : Event :=
  {| e_id := e_id e; e_resource_id := e_resource_id e; e_title := e_title e;
     e_description := e_description e; e_event_date := e_event_date e;
     e_location := e_location e; e_url := e_url e;
     e_created_at := e_created_at e; e_notified := true |}.

Definition mark_event_notified (db : DB) (event_id : Z) : DB :=
  with_events db
    (update_first (fun e => (e_id e =? event_id)%Z) set_notified (events db)).

Definition register_for_event (db : DB) (now : datetime) (user_id event_id : Z)
    : DB * bool :=
  match find (fun g => (g_user_id g =? user_id)%Z && (g_event_id g =? event_id)%Z)
             (registrations db) with
  | Some _ => (db, false)
  | None =>
    let registration := {| g_id := next_id (map g_id (registrations db));
                           g_user_id := user_id;
                           g_event_id := event_id;
                           g_registered_at := now;
                           g_reminder_1day_sent := false;
                           g_reminder_1hour_sent := false |} in
    (with_registrations db (registrations db ++ [registration]), true)
  end.

Definition get_event_registrations (db : DB) (event_id : Z) : list EventRegistration :=
  filter (fun g => (g_event_id g =? event_id)%Z) (registrations db).

Definition get_subscribed_users (db : DB) : list User :=
  filter u_is_subscribed (users db).

(** [session.query(EventRegistration).join(Event).filter(Event.event_date <=
    target_time, Event.event_date > now).all()]: the registrations whose
    event row (joined on [event_id]) lies in the window, in table order. *)
Definition due_window (db : DB) (now target_time : datetime)
    : list EventRegistration :=
  filter
    (fun g => existsb
       (fun e => (e_id e =? g_event_id g)%Z &&
                 (e_event_date e <=? target_time)%Z && (now <? e_event_date e)%Z)
       (events db))
    (registrations db).

Definition get_registrations_for_reminder (db : DB) (now : datetime)
    (hours_before : Z) : list EventRegistration :=
  let target_time := (now + timedelta_hours hours_before)%Z in
  let registrations := due_window db now target_time in
  fold_left
    (fun result reg =>
       if (hours_before =? 24)%Z && negb (g_reminder_1day_sent reg)
       then result ++ [reg]
       else if (hours_before =? 1)%Z && negb (g_reminder_1hour_sent reg)
       then result ++ [reg]
       else result)
    registrations [].

Definition set_1day (g : EventRegistration) : EventRegistration :=
  {| g_id := g_id g; g_user_id := g_user_id g; g_event_id := g_event_id g;
     g_registered_at := g_registered_at g;
     g_reminder_1day_sent := true;
     g_reminder_1hour_sent := g_reminder_1hour_sent g |}.

Definition set_1hour (g : EventRegistration) : EventRegistration :=
  {| g_id := g_id g; g_user_id := g_user_id g; g_event_id := g_event_id g;
     g_registered_at := g_registered_at g;
     g_reminder_1day_sent := g_reminder_1day_sent g;
     g_reminder_1hour_sent := true |}.

Definition mark_reminder_sent (db : DB) (registration_id : Z) (reminder_type : str)
    : DB :=
  with_registrations db
    (update_first (fun g => (g_id g =? registration_id)%Z)
       (fun reg =>
          if PyStr.eqb reminder_type (py "1day") then set_1day reg
          else if PyStr.eqb reminder_type (py "1hour") then set_1hour reg
          else reg)
       (registrations db)).

Definition set_subscribed (b : bool) (u : User) : User :=
  {| u_id := u_id u; u_telegram_id := u_telegram_id u; u_username := u_username u;
     u_first_name := u_first_name u; u_last_name := u_last_name u;
     u_is_subscribed := b; u_created_at := u_created_at u |}.

Definition update_user_subscription (db : DB) (telegram_id : Z) (is_subscribed : bool)
    : DB * bool :=
  match find (fun u => (u_telegram_id u =? telegram_id)%Z) (users db) with
  | Some _ =>
    (with_users db
       (update_first (fun u => (u_telegram_id u =? telegram_id)%Z)
          (set_subscribed is_subscribed) (users db)),
     true)
  | None => (db, false)
  end.

(** [session.query(Event).filter_by(id=event_id).first()] *)
Definition get_event (db : DB) (event_id : Z) : option Event :=
  find (fun e => (e_id e =? event_id)%Z) (events db).

(** [session.query(EventRegistration).filter_by(id=registration_id).first()] *)
Definition get_registration (db : DB) (registration_id : Z) : option EventRegistration :=
  find (fun g => (g_id g =? registration_id)%Z) (registrations db).

(** The calls that write to the store, and the store after each. *)
Inductive store_op :=
| OpAddAdmin (now : datetime) (telegram_id : Z)
| OpGetOrCreateUser (now : datetime) (telegram_id : Z)
    (username first_name last_name : option str)
| OpAddResource (now : datetime) (name url resource_type : str)
| OpAddEvent (now : datetime) (resource_id : Z) (title : str)
    (description : option str) (event_date : datetime) (location url : option str)
| OpMarkEventNotified (event_id : Z)
| OpRegisterForEvent (now : datetime) (user_id event_id : Z)
| OpMarkReminderSent (registration_id : Z) (reminder_type : str)
| OpUpdateUserSubscription (telegram_id : Z) (is_subscribed : bool).

Definition run_op (db : DB) (op : store_op) : DB :=
  match op with
  | OpAddAdmin now t => fst (add_admin db now t)
  | OpGetOrCreateUser now t un fn ln => fst (get_or_create_user db now t un fn ln)
  | OpAddResource now n u k => fst (add_resource db now n u k)
  | OpAddEvent now r t d dt l u => fst (add_event db now r t d dt l u)
  | OpMarkEventNotified i => mark_event_notified db i
  | OpRegisterForEvent now u e => fst (register_for_event db now u e)
  | OpMarkReminderSent i k => mark_reminder_sent db i k
  | OpUpdateUserSubscription t b => fst (update_user_subscription db t b)
  end.

Definition run_ops (db : DB) (ops : list store_op) : DB := fold_left run_op ops db.

(** ** config.py *)

Definition EVENT_KEYWORDS : list str :=
  map py ["meetup"; "event"; "conference"; "workshop"; "seminar";
          "hackathon"; "networking"; "startup"; "entrepreneurship";
          "pitch"; "demo day"; "webinar"; "training"]%string.

(** ** Exceptions *)

(** A raised [Exception], by the name of its class. [inl e] is a call that
    raised [e], [inr a] one that returned [a]. *)
Definition exn := string.
Definition fallible (A : Type) : Type := sum exn A.

#[global] Instance Monad_fallible : Monad fallible := Monad_either exn.
#[global] Instance Exception_fallible : MonadExc exn fallible := Exception_either exn.

(** ** event_classifier.py *)

(** What [response.json()] can decode to, as far as the classifier looks:
    an object, with what it holds under ["response"], or any other value. *)
Inductive member :=
| Absent
| StringMember (s : str)
| OtherMember.

Inductive json :=
| JObject (response : member)
| JOther.

(** The [requests.Response] of the generate call: its status code and the
    outcome of [response.json()]. *)
Record Response := {
  status_code : Z;
  response_json : fallible json
}.

(** [result_data.get('response', '').strip()]: only a dict has [get], and
    only a string has [strip]. *)
Definition get_response (result_data : json) : fallible str :=
  match result_data with
  | JObject (StringMember s) => ret (PyStr.strip s)
  | JObject Absent => ret (PyStr.strip [])
  | JObject OtherMember => raise "AttributeError"%string
  | JOther => raise "AttributeError"%string
  end.

(** [seq[0]] *)
Definition item0 {A : Type} (l : list A) : fallible A :=
  match l with
  | x :: _ => ret x
  | [] => raise "IndexError"%string
  end.

(** [float(n)] for a count. *)
Definition float_of_nat (n : nat) : float :=
  PrimFloat.of_uint63 (Uint63.of_Z (Z.of_nat n)).

Definition positive_keywords : list str :=
  map py ["стартап"; "startup"; "предприниматель"; "entrepreneur"; "бизнес"; "business";
          "инвестиции"; "investment"; "венчур"; "venture"; "акселератор"; "accelerator";
          "инкубатор"; "incubator"; "питч"; "pitch"; "демо-день"; "demo day";
          "нетворкинг"; "networking"; "saas"; "b2b"; "технологии для бизнеса";
          "бизнес-конференция"; "бизнес-митап"; "entrepreneurship"]%string.

Definition negative_keywords : list str :=
  map py ["дизайн"; "design"; "ui/ux"; "графический дизайн"; "иллюстрация";
          "фотография"; "photography"; "искусство"; "art"; "творчество";
          "хобби"; "hobby"; "личное развитие"; "йога"; "медитация"]%string.

Definition candidate_labels : list str :=
  map py ["событие для предпринимателей и стартапов";
          "бизнес-конференция или митап";
          "событие для дизайнеров";
          "событие для других профессий";
          "общее мероприятие"]%string.

(** [sum(1 for keyword in keywords if keyword in text_lower)] *)
Definition count_matches (keywords : list str) (text_lower : str) : nat :=
  List.length (filter (fun keyword => contains keyword text_lower) keywords).

(** The zero-shot pipeline object: called on the text and the candidate
    labels, it returns the labels and the scores of its answer. *)
Definition pipeline := str -> list str -> fallible (list str * list float).

(** An [EventClassifier] after [__init__]. *)
Record EventClassifier := {
  use_ollama : bool;
  classifier : option pipeline
}.

Section Classifier.

Context {case_map : CaseMap}.
(** [float(s)] of the interpreter. *)
Variable pyfloat : str -> fallible float.
(** [requests.post(f"{base}/api/generate", json={..., "prompt": prompt},
    timeout=30)], where [prompt] is the fixed question with the text put in. *)
Variable post_generate : str -> fallible Response.

Definition _classify_with_keywords (text : str) : bool * float :=
  let text_lower := lower text in
  let positive_count := count_matches positive_keywords text_lower in
  let negative_count := count_matches negative_keywords text_lower in
  let total_keywords := (positive_count + negative_count)%nat in
  if (total_keywords =? 0)%nat then (false, 0.3%float)
  else
    let confidence :=
      if (0 <? total_keywords)%nat
      then PrimFloat.div (float_of_nat positive_count) (float_of_nat total_keywords)
      else 0.5%float in
    let is_relevant := (negative_count <? positive_count)%nat && (0 <? positive_count)%nat in
    (is_relevant, confidence).

(** The inner [try] of both answers of [_classify_with_ollama]:
    [parts = result.split(); if len(parts) > 1: confidence = float(parts[-1])],
    any exception leaving [confidence] as it was. *)
Definition answer_confidence (confidence : float) (result : str) : float :=
  let parts := PyStr.split result in
  if (1 <? List.length parts)%nat then
    match pyfloat (last parts []) with
    | inr c => c
    | inl _ => confidence
    end
  else confidence.

Definition _classify_with_ollama (text : str) : fallible (bool * float) :=
  catch
    (response <- post_generate text ;;
     if negb (status_code response =? 200)%Z then ret (_classify_with_keywords text)
     else
       result_data <- response_json response ;;
       stripped <- get_response result_data ;;
       let result := upper stripped in
       if startswith result (py "ДА")
       then ret (true, answer_confidence 0.9%float result)
       else ret (false, answer_confidence 0.1%float result))
    (fun _ => ret (_classify_with_keywords text)).

Definition _classify_with_local_model (model : pipeline) (text : str)
    : fallible (bool * float) :=
  catch
    (result <- model text candidate_labels ;;
     top_label <- item0 (fst result) ;;
     top_score <- item0 (snd result) ;;
     let is_relevant := existsb (PyStr.eqb top_label) (firstn 2 candidate_labels) in
     let confidence := if is_relevant then top_score else (1 - top_score)%float in
     ret (is_relevant, confidence))
    (fun _ => ret (_classify_with_keywords text)).

(** [title] is [None] when the caller has none; [f"{title}. {description}"[:1000]]
    is the text classified. *)
Definition is_relevant_event (self : EventClassifier) (title : option str)
    (description : str) : fallible (bool * float) :=
  match title with
  | Some (c :: t) =>
    let text := firstn 1000 ((c :: t) ++ py ". " ++ description) in
    if use_ollama self then _classify_with_ollama text
    else match classifier self with
         | Some model => _classify_with_local_model model text
         | None => ret (_classify_with_keywords text)
         end
  | _ => ret (false, 0%float)
  end.

(** The answer of the remote service that [_classify_with_ollama] reads: the
    stripped ["response"] member of a reply with status 200. *)
Definition remote_answer (text : str) : option str :=
  match post_generate text with
  | inr response =>
    if (status_code response =? 200)%Z then
      match response_json response with
      | inr result_data =>
        match get_response result_data with
        | inr stripped => Some stripped
        | inl _ => None
        end
      | inl _ => None
      end
    else None
  | inl _ => None
  end.

(** The answer of the local model that [_classify_with_local_model] reads:
    its first label and first score. *)
Definition local_answer (model : pipeline) (text : str) : option (str * float) :=
  match model text candidate_labels with
  | inr (top_label :: _, top_score :: _) => Some (top_label, top_score)
  | _ => None
  end.

End Classifier.

(** [EventClassifier.__init__]: [test_connection] is the outcome of the
    status code read in [_test_ollama_connection], [load_model] the outcome
    of building the local pipeline in [_init_local_model]. *)
Definition EventClassifier_init (USE_OLLAMA_CLASSIFIER : bool)
    (test_connection : fallible Z) (load_model : fallible pipeline)
    : EventClassifier :=
  let use_ollama :=
    USE_OLLAMA_CLASSIFIER &&
    match test_connection with
    | inr code => (code =? 200)%Z
    | inl _ => false
    end in
  if use_ollama then {| use_ollama := true; classifier := None |}
  else {| use_ollama := false;
          classifier := match load_model with inr m => Some m | inl _ => None end |}.

(** A reading of [float(s)] on plain decimal literals: an optional sign,
    digits, an optional point and digits, at most 15 digits in all. On these
    the quotient of two exactly represented integers is the correctly rounded
    value, as CPython's; every other string is refused here. *)
Definition isdigit (c : N) : bool := ((48 <=? c) && (c <=? 57))%N.

Fixpoint digits_value (acc : Z) (s : str) : Z :=
  match s with
  | [] => acc
  | c :: r => digits_value (10 * acc + (Z.of_N c - 48))%Z r
  end.

Fixpoint take_digits (s : str) : str * str :=
  match s with
  | c :: r => if isdigit c then let (d, rest) := take_digits r in (c :: d, rest)
              else ([], s)
  | [] => ([], [])
  end.

Definition decimal_float (s : str) : fallible float :=
  let (negative, body) :=
    match s with
    | 45%N :: r => (true, r)
    | 43%N :: r => (false, r)
    | _ => (false, s)
    end in
  let (int_part, rest) := take_digits body in
  let frac :=
    match rest with
    | [] => Some []
    | 46%N :: r => Some r
    | _ => None
    end in
  match frac with
  | Some f =>
    let n := (List.length int_part + List.length f)%nat in
    if forallb isdigit f && (0 <? n)%nat && (n <=? 15)%nat then
      let x := PrimFloat.div
                 (PrimFloat.of_uint63 (Uint63.of_Z (digits_value 0 (int_part ++ f))))
                 (PrimFloat.of_uint63 (Uint63.of_Z (10 ^ Z.of_nat (List.length f)))) in
      ret (if negative then PrimFloat.opp x else x)
    else raise "ValueError"%string
  | None => raise "ValueError"%string
  end.

(** ** event_parser.py *)

(** The dict built by [_extract_event_info]. *)
Record RawEvent := {
  d_title : str;
  d_description : str;
  d_event_date : datetime;
  d_location : option str;
  d_url : str
}.

(** What the extractor reads of a parsed page: [soup.get_text()], the text
    of [soup.find(tag)], the [content] attribute of
    [soup.find('meta', property=p)], and the texts of
    [soup.find_all(tag, limit=5)]. *)
Record Soup := {
  soup_get_text : str;
  soup_find : str -> option str;
  soup_find_meta : str -> option (option str);
  soup_find_all : str -> list str
}.

Section Parser.

Context {case_map : CaseMap}.
Variable pyfloat : str -> fallible float.
Variable post_generate : str -> fallible Response.
(** [self.classifier], built once in [EventParser.__init__]. *)
Variable self_classifier : EventClassifier.
Variable CLASSIFIER_CONFIDENCE_THRESHOLD : float.
(** [self.session.get(url, timeout=10)], [response.raise_for_status()] and
    [BeautifulSoup(response.content, 'lxml')], each of which may raise. *)
Variable fetch : str -> fallible Soup.
(** [_extract_date] and [_extract_location] rest on [re] and [dateparser]. *)
Variable _extract_date : Soup -> fallible (option datetime).
Variable _extract_location : Soup -> fallible (option str).

(** [any(keyword in text for keyword in EVENT_KEYWORDS)] *)
Definition has_event_keywords (text : str) : bool :=
  existsb (fun keyword => contains keyword text) EVENT_KEYWORDS.

(** The loop over [['h1', 'h2', 'h3', 'title']]. *)
Fixpoint find_title (soup : Soup) (tags : list str) (title : option str) : option str :=
  match tags with
  | [] => title
  | tag :: rest =>
    match soup_find soup tag with
    | Some text =>
      let title := PyStr.strip text in
      if has_event_keywords (lower title) then Some title
      else find_title soup rest (Some title)
    | None => find_title soup rest title
    end
  end.

(** The two loops that look for a description. *)
Definition find_description (soup : Soup) : option str :=
  let fits text := (50 <? List.length text)%nat && has_event_keywords (lower text) in
  match find fits (map PyStr.strip (soup_find_all soup (py "p"))) with
  | Some text => Some (firstn 500 text)
  | None =>
    match find fits (map PyStr.strip (soup_find_all soup (py "div"))) with
    | Some text => Some (firstn 500 text)
    | None => None
    end
  end.

Definition _extract_event_info (soup : Soup) (source_url : str)
    : fallible (option RawEvent) :=
  let title := find_title soup (map py ["h1"; "h2"; "h3"; "title"]%string) None in
  let title :=
    if truthy title then title
    else match soup_find_meta soup (py "og:title") with
         | Some (Some content) => Some (PyStr.strip content)
         | Some None => Some (PyStr.strip [])
         | None => title
         end in
  match title with
  | Some (c :: t) =>
    event_date <- _extract_date soup ;;
    match event_date with
    | None => ret None
    | Some event_date =>
      let description := find_description soup in
      location <- _extract_location soup ;;
      ret (Some {| d_title := c :: t;
                   d_description := match description with Some d => d | None => [] end;
                   d_event_date := event_date;
                   d_location := location;
                   d_url := source_url |})
    end
  | _ => ret None
  end.

(** The body of the [try] of [_parse_website]; [events] is what the list
    holds when the body ends. *)
Definition _parse_website_try (url : str) : fallible (list RawEvent) :=
  soup <- fetch url ;;
  let text_content := lower (soup_get_text soup) in
  if has_event_keywords text_content then
    event_data <- _extract_event_info soup url ;;
    match event_data with
    | Some event_data =>
      verdict <- is_relevant_event pyfloat post_generate self_classifier
                   (Some (d_title event_data)) (d_description event_data) ;;
      let (is_relevant, confidence) := verdict : bool * float in
      if is_relevant && PrimFloat.leb CLASSIFIER_CONFIDENCE_THRESHOLD confidence
      then ret [event_data]
      else ret []
    | None => ret []
    end
  else ret [].

Definition _parse_website (url : str) : fallible (list RawEvent) :=
  catch (_parse_website_try url) (fun _ => ret []).

Definition parse_resource (resource_url resource_type : str)
    : fallible (list RawEvent) :=
  catch
    (if PyStr.eqb resource_type (py "channel") then ret []
     else if existsb (PyStr.eqb resource_type) (map py ["blog"; "website"]%string)
     then _parse_website resource_url
     else ret [])
    (fun _ => ret []).

End Parser.

(** ** bot.py: what the handlers do to the store

    The handlers read the update they are called with, call the store and
    answer through the transport; here each is the store it leaves. *)

(** [subscribe]: the upsert of the sender, then the flag set. *)
Definition subscribe (db : DB) (now : datetime) (telegram_id : Z)
    (username first_name last_name : option str) : DB :=
  let db := fst (get_or_create_user db now telegram_id username first_name last_name) in
  fst (update_user_subscription db telegram_id true).

(** [unsubscribe]: the upsert of the sender, then the flag cleared. *)
Definition unsubscribe (db : DB) (now : datetime) (telegram_id : Z)
    (username first_name last_name : option str) : DB :=
  let db := fst (get_or_create_user db now telegram_id username first_name last_name) in
  fst (update_user_subscription db telegram_id false).

(** [register_callback]: the upsert of the sender, then the registration of
    [user.id] for the event id carried by the button; the boolean chooses
    between the two answers. [now] and [now'] are the instants the two store
    calls read. *)
Definition register_callback (db : DB) (now now' : datetime) (telegram_id : Z)
    (username first_name last_name : option str) (event_id : Z) : DB * bool :=
  let (db, user) := get_or_create_user db now telegram_id username first_name last_name in
  register_for_event db now' (u_id user) event_id.

(** The test every admin handler starts with:
    [not db.is_admin(user_id) and user_id not in ADMIN_IDS] rejects. *)
Definition rejected (db : DB) (ADMIN_IDS : list Z) (user_id : Z) : bool :=
  negb (is_admin db user_id) && negb (existsb (Z.eqb user_id) ADMIN_IDS).

(** [add_resource] (the handler of the command): [args] is [context.args]. *)
Definition add_resource_command (db : DB) (now : datetime) (ADMIN_IDS : list Z)
    (user_id : Z) (args : list str) : DB :=
  if rejected db ADMIN_IDS user_id then db
  else
    match args with
    | name :: url :: resource_type :: _ =>
      if existsb (PyStr.eqb resource_type) (map py ["channel"; "blog"; "website"]%string)
      then fst (add_resource db now name url resource_type)
      else db
    | _ => db
    end.

(** The loop of [main] over [ADMIN_IDS]: [for admin_id in ADMIN_IDS:
    db.add_admin(admin_id)], each id with the instant its call reads. *)
Definition init_admins (db : DB) (calls : list (datetime * Z)) : DB :=
  fold_left (fun db call => fst (add_admin db (fst call) (snd call))) calls db.

(** * Vocabulary of the properties

    Predicates and contracts the statements below are written with, and the
    sample stores, services and pages they are tried on. *)

(** ** Store *)



(** The reminder flag a threshold stands for: the 24h flag for 24, the 1h
    flag for 1. *)
Definition reminder_flag (thresholdHours : Z) (g : EventRegistration) : bool :=
  if (thresholdHours =? 24)%Z then g_reminder_1day_sent g else g_reminder_1hour_sent g.

(** [now < date <= now + thresholdHours] for the event a registration
    refers to. *)
Definition event_due (db : DB) (now thresholdHours : Z) (g : EventRegistration) : Prop :=
  exists e, In e (events db) /\ e_id e = g_event_id g /\
            (now < e_event_date e <= now + timedelta_hours thresholdHours)%Z.

(** The contract in the words of the specification: the registrations, in
    table order, whose event is due and whose flag for the threshold is
    still false. *)
Definition listDueRegistrations (db : DB) (thresholdHours now : Z)
    : list EventRegistration :=
  filter
    (fun g =>
       existsb (fun e => (e_id e =? g_event_id g)%Z && (now <? e_event_date e)%Z &&
                         (e_event_date e <=? now + timedelta_hours thresholdHours)%Z)
               (events db) &&
       negb (reminder_flag thresholdHours g))
    (registrations db).

(** The events' primary keys are pairwise distinct. *)
Definition unique_event_ids (db : DB) : Prop := NoDup (map e_id (events db)).

(** How one stored event may differ after a store operation: not at all, or
    by its flag having been set. *)
Definition keeps (e e' : Event) : Prop := e' = e \/ e' = set_notified e.

(** How the table of events may differ: rows are kept in place, and rows may
    have been appended. *)
Definition evolves (l l' : list Event) : Prop :=
  exists kept extra, l' = kept ++ extra /\ Forall2 keeps l kept.

(** [session.query(User).filter_by(telegram_id=telegram_id).first()] *)
Definition get_user (db : DB) (telegram_id : Z) : option User :=
  find (fun u => (u_telegram_id u =? telegram_id)%Z) (users db).

(** The sentence of the specification read literally: after an upsert the
    row returned carries the display fields of the call. *)
Definition display_fields_refreshed (db : DB) (now : datetime) (telegram_id : Z)
    (username first_name last_name : option str) : Prop :=
  let user := snd (get_or_create_user db now telegram_id username first_name last_name) in
  u_username user = username /\ u_first_name user = first_name /\
  u_last_name user = last_name.

(** The assignment made to the registration found, by reminder type. *)
Definition sent (reminder_type : str) (reg : EventRegistration) : EventRegistration :=
  if PyStr.eqb reminder_type (py "1day") then set_1day reg
  else if PyStr.eqb reminder_type (py "1hour") then set_1hour reg
  else reg.

(** ** Classifier *)


(** The classifier that has neither the remote service nor a local model. *)
Definition keyword_classifier : EventClassifier :=
  {| use_ollama := false; classifier := None |}.



(** Over all the counts the two keyword lists allow: the verdict is the
    comparison of the quotient with one half, and a quotient with a negative
    match is below one. *)
Definition quotients_majority : bool :=
  forallb
    (fun p => forallb
       (fun n => (p + n =? 0)%nat ||
                 (Bool.eqb ((n <? p)%nat && (0 <? p)%nat)
                    (PrimFloat.ltb 0.5 (PrimFloat.div (float_of_nat p) (float_of_nat (p + n)))) &&
                  ((n =? 0)%nat ||
                   PrimFloat.ltb (PrimFloat.div (float_of_nat p) (float_of_nat (p + n))) 1)))
       (seq 0 (S (List.length negative_keywords))))
    (seq 0 (S (List.length positive_keywords))).

(** ** Stores built by the operations *)

(** The integer keys of a table are pairwise distinct and at least 1. *)
Definition keys_ok (ids : list Z) : Prop :=
  NoDup ids /\ Forall (fun i => (1 <= i)%Z) ids.

Definition unique_ids (db : DB) : Prop :=
  keys_ok (map r_id (resources db)) /\ keys_ok (map e_id (events db)) /\
  keys_ok (map u_id (users db)) /\ keys_ok (map g_id (registrations db)) /\
  keys_ok (map a_id (admins db)).

(** The [unique=True] columns hold no value twice. *)
Definition unique_telegram_ids (db : DB) : Prop :=
  NoDup (map u_telegram_id (users db)) /\ NoDup (map a_telegram_id (admins db)).

(** No user is registered twice for one event. *)
Definition unique_registrations (db : DB) : Prop :=
  NoDup (map (fun g => (g_user_id g, g_event_id g)) (registrations db)).

(** The [filter_by] of [register_for_event]. *)
Definition same_pair (user_id event_id : Z) (g : EventRegistration) : bool :=
  (g_user_id g =? user_id)%Z && (g_event_id g =? event_id)%Z.

(** How a stored registration may differ later: in its two flags, each of
    which may only have been set. *)
Definition reg_keeps (g g' : EventRegistration) : Prop :=
  g_id g' = g_id g /\ g_user_id g' = g_user_id g /\ g_event_id g' = g_event_id g /\
  g_registered_at g' = g_registered_at g /\
  (g_reminder_1day_sent g = true -> g_reminder_1day_sent g' = true) /\
  (g_reminder_1hour_sent g = true -> g_reminder_1hour_sent g' = true).

(** How a stored user may differ later: in the display fields and the
    subscription flag. *)
Definition user_keeps (u u' : User) : Prop :=
  u_id u' = u_id u /\ u_telegram_id u' = u_telegram_id u /\
  u_created_at u' = u_created_at u.

(** [l'] holds the rows of [l] in place, each related to what it was by [R],
    followed by rows that were appended. *)
Definition grows {A : Type} (R : A -> A -> Prop) (l l' : list A) : Prop :=
  exists kept extra, l' = kept ++ extra /\ Forall2 R l kept.

(** The reminder type and the threshold of one reminder job. *)
Definition job_flag (reminder_type : str) (hours_before : Z) : Prop :=
  (reminder_type = py "1day" /\ hours_before = 24%Z) \/
  (reminder_type = py "1hour" /\ hours_before = 1%Z).

(** The test the loop of [get_registrations_for_reminder] makes on a joined
    row, together with the join. *)
Definition due_test (db : DB) (now h : Z) (g : EventRegistration) : bool :=
  existsb (fun e => (e_id e =? g_event_id g)%Z &&
                    (e_event_date e <=? now + timedelta_hours h)%Z &&
                    (now <? e_event_date e)%Z) (events db) &&
  ((h =? 24)%Z && negb (g_reminder_1day_sent g) ||
   (h =? 1)%Z && negb (g_reminder_1hour_sent g)).

(** The handlers [subscribe] and [unsubscribe], by the flag they set. *)
Definition set_subscription (is_subscribed : bool) (db : DB) (now : datetime)
    (telegram_id : Z) (username first_name last_name : option str) : DB :=
  if is_subscribed then subscribe db now telegram_id username first_name last_name
  else unsubscribe db now telegram_id username first_name last_name.

(** ** Extractor *)

(** The stripped texts of the tags of [tags] the page has, in that order. *)
Definition present_titles (soup : Soup) (tags : list str) : list str :=
  flat_map (fun tag => match soup_find soup tag with
                       | Some text => [PyStr.strip text]
                       | None => []
                       end) tags.

(** The title [_extract_event_info] goes on with, after the loop over the
    tags and the look at [og:title]. *)
Definition page_title {case_map : CaseMap} (soup : Soup) : option str :=
  let title := find_title soup (map py ["h1"; "h2"; "h3"; "title"]%string) None in
  if truthy title then title
  else match soup_find_meta soup (py "og:title") with
       | Some (Some content) => Some (PyStr.strip content)
       | Some None => Some (PyStr.strip [])
       | None => title
       end.

(** ** Samples *)

(** A store with one event and one registration for it. *)
Definition event_at (date : datetime) : Event :=
  {| e_id := 1; e_resource_id := 1; e_title := py "Demo day"; e_description := None;
     e_event_date := date; e_location := None; e_url := None; e_created_at := 0;
     e_notified := false |}.

Definition registration_1 : EventRegistration :=
  {| g_id := 1; g_user_id := 1; g_event_id := 1; g_registered_at := 0;
     g_reminder_1day_sent := false; g_reminder_1hour_sent := false |}.

Definition db_event_at (date : datetime) : DB :=
  {| resources := []; events := [event_at date]; users := [];
     registrations := [registration_1]; admins := [] |}.


Definition sample_ops : list store_op :=
  [ OpAddEvent 5 1 (py "Pitch night") None 900 None None;
    OpMarkEventNotified 1;
    OpAddEvent 6 1 (py "Demo day") (Some (py "again")) 0 None None;
    OpMarkReminderSent 1 (py "1day");
    OpGetOrCreateUser 7 42 None (Some (py "Ann")) None;
    OpMarkEventNotified 2;
    OpUpdateUserSubscription 42 false ].

Definition user_ann : User :=
  {| u_id := 1; u_telegram_id := 42; u_username := Some (py "ann_k");
     u_first_name := Some (py "Ann"); u_last_name := Some (py "Kay");
     u_is_subscribed := false; u_created_at := 0 |}.

Definition db_ann : DB :=
  {| resources := []; events := []; users := [user_ann]; registrations := [];
     admins := [] |}.

(** A remote service that cannot be reached. *)
Definition post_unreachable (text : str) : fallible Response :=
  inl "ConnectionError"%string.



(** Two resources: a host that cannot be reached, and a page announcing a
    meetup. *)
Definition meetup_page : Soup :=
  {| soup_get_text := py "Business networking meetup. Join us on 2027-03-15.";
     soup_find := fun tag => if PyStr.eqb tag (py "h1")
                             then Some (py " Business networking meetup ")
                             else None;
     soup_find_meta := fun _ => None;
     soup_find_all := fun _ => [] |}.

Definition sample_fetch (url : str) : fallible Soup :=
  if PyStr.eqb url (py "https://down.example") then inl "ConnectionError"%string
  else inr meetup_page.

Definition sample_date (soup : Soup) : fallible (option datetime) := inr (Some 1805000000000000%Z).

Definition sample_location (soup : Soup) : fallible (option str) := inr None.

(** A reply with status 200 and no "response" member. *)
Definition post_no_response (text : str) : fallible Response :=
  inr {| status_code := 200; response_json := inr (JObject Absent) |}.

(** A pipeline that answers with the label of the designers. *)
Definition designers_model : pipeline :=
  fun text labels => inr ([nth 2 labels []], [0.75%float]).

(** * Properties *)

(** ** Strings *)

Lemma str_eqb_eq (a b : str) : PyStr.eqb a b = true <-> a = b.
Proof.
  revert b; induction a as [|x a IH]; intros [|y b]; simpl; split;
    try congruence; try reflexivity.
  - intros H. apply andb_true_iff in H as [Hx Hab].
    apply N.eqb_eq in Hx. apply IH in Hab. congruence.
  - intros H. injection H as -> ->.
    apply andb_true_iff. split; [apply N.eqb_refl | now apply IH].
Qed.

Lemma str_eqb_refl (a : str) : PyStr.eqb a a = true.
Proof. now apply str_eqb_eq. Qed.

Lemma startswith_spec (s p : str) :
  startswith s p = true <-> exists post, s = p ++ post.
Proof.
  revert s; induction p as [|x p IH]; intros s; simpl.
  - split; [intros _; now exists s | reflexivity].
  - destruct s as [|y s].
    + split; [discriminate | intros [post H]; discriminate].
    + rewrite andb_true_iff, N.eqb_eq, IH. split.
      * intros [-> [post ->]]. now exists post.
      * intros [post H]. injection H as -> ->. split; [reflexivity | now exists post].
Qed.

(** [contains k s] is the substring test. *)
Lemma contains_spec (k s : str) :
  contains k s = true <-> exists pre post, s = pre ++ k ++ post.
Proof.
  induction s as [|c s IH].
  - simpl. rewrite orb_false_r, startswith_spec. split.
    + intros [post H]. now exists [], post.
    + intros [pre [post H]]. destruct pre; simpl in H.
      * now exists post.
      * discriminate.
  - change (contains k (c :: s)) with (startswith (c :: s) k || contains k s).
    rewrite orb_true_iff, startswith_spec, IH. split.
    + intros [[post H] | [pre [post H]]].
      * now exists [], post.
      * exists (c :: pre), post. now rewrite H.
    + intros [pre [post H]]. destruct pre as [|c' pre]; simpl in H.
      * left. now exists post.
      * right. injection H as -> ->. now exists pre, post.
Qed.

(** ** Rows and tables *)

Section Tables.

Context {A : Type}.
Implicit Types (p : A -> bool) (f : A -> A) (l : list A).

Lemma find_existsb p l : existsb p l = match find p l with Some _ => true | None => false end.
Proof. induction l as [|x l IH]; simpl; [reflexivity|]. now destruct (p x). Qed.

Lemma find_app_none p l l' : find p l = None -> find p (l ++ l') = find p l'.
Proof.
  induction l as [|x l IH]; simpl; [reflexivity|].
  destruct (p x); [discriminate | exact IH].
Qed.

Lemma find_app_some p l l' x : find p l = Some x -> find p (l ++ l') = Some x.
Proof.
  induction l as [|y l IH]; simpl; [discriminate|].
  destruct (p y); [trivial | exact IH].
Qed.

Lemma find_none_filter p l : find p l = None -> filter p l = [].
Proof.
  induction l as [|x l IH]; simpl; [reflexivity|].
  destruct (p x); [discriminate | exact IH].
Qed.

Lemma find_some_filter p l x : find p l = Some x -> (1 <= List.length (filter p l))%nat.
Proof.
  induction l as [|y l IH]; simpl; [discriminate|].
  destruct (p y); simpl; [lia | exact IH].
Qed.

Lemma update_first_length p f l : List.length (update_first p f l) = List.length l.
Proof.
  induction l as [|x l IH]; simpl; [reflexivity|].
  destruct (p x); simpl; congruence.
Qed.

Lemma update_first_none p f l : find p l = None -> update_first p f l = l.
Proof.
  induction l as [|x l IH]; simpl; [reflexivity|].
  destruct (p x); [discriminate | intros H; now rewrite IH].
Qed.

(** The row found before the update is the row rewritten, when the rewrite
    keeps it selected. *)
Lemma find_update_first p f l x :
  find p l = Some x -> p (f x) = true -> find p (update_first p f l) = Some (f x).
Proof.
  induction l as [|y l IH]; simpl; [discriminate|].
  destruct (p y) eqn:Hy; simpl.
  - intros H Hf. injection H as ->. now rewrite Hf.
  - intros H Hf. rewrite Hy. now apply IH.
Qed.

Lemma update_first_idem p f l :
  (forall x, p x = true -> p (f x) = true) ->
  (forall x, f (f x) = f x) ->
  update_first p f (update_first p f l) = update_first p f l.
Proof.
  intros Hp Hf. induction l as [|x l IH]; simpl; [reflexivity|].
  destruct (p x) eqn:Hx; simpl.
  - now rewrite (Hp x Hx), Hf.
  - now rewrite Hx, IH.
Qed.

(** Rows the selection does not pick are left where they are. *)
Lemma update_first_frame p f l i x :
  nth_error l i = Some x -> p x = false -> nth_error (update_first p f l) i = Some x.
Proof.
  revert i; induction l as [|y l IH]; intros [|i]; simpl; try discriminate.
  - intros H Hx. injection H as ->. now rewrite Hx.
  - intros H Hx. destruct (p y); simpl; [exact H | now apply IH].
Qed.

(** Every row after the update is the row before or its rewrite. *)
Lemma update_first_rows p f l :
  Forall2 (fun x y => y = x \/ (p x = true /\ y = f x)) l (update_first p f l).
Proof.
  induction l as [|x l IH]; simpl; [constructor|].
  destruct (p x) eqn:Hx.
  - constructor; [now right|]. clear. induction l; constructor; auto.
  - constructor; [now left | exact IH].
Qed.


Lemma update_first_map {B : Type} p f (g : A -> B) l :
  (forall x, g (f x) = g x) -> map g (update_first p f l) = map g l.
Proof.
  intros Hg. induction l as [|x l IH]; simpl; [reflexivity|].
  destruct (p x); simpl; [now rewrite Hg | now rewrite IH].
Qed.

End Tables.

(** The key given to an inserted row is not in the table. *)
Lemma next_id_fresh ids : ~ In (next_id ids) ids.
Proof.
  assert (Hmax : forall x, In x ids -> (x <= fold_right Z.max 0 ids)%Z).
  { induction ids as [|y ids IH]; simpl; [contradiction|].
    intros x [-> | Hx]; [lia | specialize (IH x Hx); lia]. }
  intros Hin. apply Hmax in Hin. unfold next_id in Hin. lia.
Qed.

(** What a store operation does to the table of events: nothing, the insert
    of [add_event] behind its dedup gate, or the flagging of
    [mark_event_notified]. *)
Lemma run_op_events db op :
  events (run_op db op) = events db \/
  (exists now rid title desc date loc url,
     find (same_key rid title date) (events db) = None /\
     events (run_op db op) = events db ++
       [{| e_id := next_id (map e_id (events db)); e_resource_id := rid;
           e_title := title; e_description := desc; e_event_date := date;
           e_location := loc; e_url := url; e_created_at := now;
           e_notified := false |}]) \/
  (exists event_id,
     events (run_op db op)
     = update_first (fun e => (e_id e =? event_id)%Z) set_notified (events db)).
Proof.
  destruct op; simpl.
  - left. unfold add_admin. now destruct (find _ _).
  - left. unfold get_or_create_user. now destruct (find _ _).
  - now left.
  - unfold add_event.
    destruct (find (same_key resource_id title event_date) (events db)) eqn:Hfind;
      [now left|].
    right. left. exists now, resource_id, title, description, event_date, location, url.
    now split.
  - right. right. now exists event_id.
  - left. unfold register_for_event. now destruct (find _ _).
  - now left.
  - left. unfold update_user_subscription. now destruct (find _ _).
Qed.

(** ** The dedup gate of [add_event] *)










(** ** The registrations due for a reminder *)

Lemma fold_left_append_filter {A : Type} (step : list A -> A -> list A) (keep : A -> bool) :
  (forall result x, step result x = if keep x then result ++ [x] else result) ->
  forall l acc, fold_left step l acc = acc ++ filter keep l.
Proof.
  intros Hstep. induction l as [|x l IH]; intros acc; simpl.
  - now rewrite app_nil_r.
  - rewrite IH, Hstep. destruct (keep x); [now rewrite <- app_assoc | reflexivity].
Qed.

Lemma existsb_ext {A : Type} (p q : A -> bool) (l : list A) :
  (forall x, p x = q x) -> existsb p l = existsb q l.
Proof. intros H. induction l as [|x l IH]; simpl; [reflexivity | now rewrite H, IH]. Qed.

Lemma filter_filter {A : Type} (p q : A -> bool) (l : list A) :
  filter q (filter p l) = filter (fun x => p x && q x) l.
Proof.
  induction l as [|x l IH]; simpl; [reflexivity|].
  destruct (p x); simpl; [destruct (q x)|]; now rewrite IH.
Qed.

(** The loop of [get_registrations_for_reminder] is a filter of the joined
    rows by the flag test of the two branches. *)
Lemma get_registrations_for_reminder_filter db now h :
  get_registrations_for_reminder db now h =
  filter (fun reg => (h =? 24)%Z && negb (g_reminder_1day_sent reg) ||
                     (h =? 1)%Z && negb (g_reminder_1hour_sent reg))
         (due_window db now (now + timedelta_hours h)%Z).
Proof.
  unfold get_registrations_for_reminder.
  rewrite fold_left_append_filter with
    (keep := fun reg => (h =? 24)%Z && negb (g_reminder_1day_sent reg) ||
                        (h =? 1)%Z && negb (g_reminder_1hour_sent reg)).
  - reflexivity.
  - intros result reg.
    destruct ((h =? 24)%Z && negb (g_reminder_1day_sent reg)); [reflexivity|].
    now destruct ((h =? 1)%Z && negb (g_reminder_1hour_sent reg)).
Qed.

Lemma event_due_existsb db now h g :
  existsb (fun e => (e_id e =? g_event_id g)%Z && (now <? e_event_date e)%Z &&
                    (e_event_date e <=? now + timedelta_hours h)%Z) (events db) = true
  <-> event_due db now h g.
Proof.
  rewrite existsb_exists. unfold event_due.
  split; intros [e [Hin H]]; exists e; (split; [exact Hin|]).
  - apply andb_true_iff in H as [H H3]. apply andb_true_iff in H as [H1 H2].
    apply Z.eqb_eq in H1. apply Z.ltb_lt in H2. apply Z.leb_le in H3. lia.
  - destruct H as [H1 [H2 H3]].
    apply Z.eqb_eq in H1. apply Z.ltb_lt in H2. apply Z.leb_le in H3.
    now rewrite H1, H2, H3.
Qed.

Lemma get_registrations_for_reminder_spec db now h :
  h = 24%Z \/ h = 1%Z ->
  get_registrations_for_reminder db now h = listDueRegistrations db h now.
Proof.
  intros Hh. rewrite get_registrations_for_reminder_filter.
  unfold due_window, listDueRegistrations, reminder_flag.
  rewrite filter_filter. apply filter_ext. intros g. f_equal.
  - apply existsb_ext. intros e.
    rewrite <- !andb_assoc. f_equal. apply andb_comm.
  - destruct Hh as [-> | ->]; simpl; [apply orb_false_r | reflexivity].
Qed.

Lemma NoDup_map_inj {A B : Type} (f : A -> B) (l : list A) x y :
  NoDup (map f l) -> In x l -> In y l -> f x = f y -> x = y.
Proof.
  induction l as [|a l IH]; simpl; [contradiction|].
  intros Hnd Hx Hy Hf. inversion Hnd as [|? ? Hnotin Hnd']; subst.
  destruct Hx as [-> | Hx], Hy as [-> | Hy]; try reflexivity.
  - exfalso. apply Hnotin. rewrite Hf. now apply in_map.
  - exfalso. apply Hnotin. rewrite <- Hf. now apply in_map.
  - now apply IH.
Qed.

(** The stores built by store operations have pairwise distinct event ids. *)
Lemma run_op_unique_event_ids db op :
  unique_event_ids db -> unique_event_ids (run_op db op).
Proof.
  unfold unique_event_ids. intros Hdb.
  destruct (run_op_events db op)
    as [-> | [[now [rid [title [desc [date [loc [url [_ ->]]]]]]]] | [event_id ->]]].
  - exact Hdb.
  - rewrite map_app. simpl. apply NoDup_app; [exact Hdb | repeat constructor; intros [] |].
    intros x Hx [<- | []]. now apply (next_id_fresh (map e_id (events db))).
  - rewrite update_first_map; [exact Hdb | reflexivity].
Qed.

Lemma run_ops_unique_event_ids ops :
  forall db, unique_event_ids db -> unique_event_ids (run_ops db ops).
Proof.
  induction ops as [|op ops IH]; intros db Hdb; simpl; [exact Hdb|].
  apply IH. now apply run_op_unique_event_ids.
Qed.

Lemma in_listDueRegistrations db h now g :
  In g (listDueRegistrations db h now) <->
  In g (registrations db) /\ event_due db now h g /\ reminder_flag h g = false.
Proof.
  unfold listDueRegistrations.
  rewrite filter_In, andb_true_iff, event_due_existsb, negb_true_iff.
  tauto.
Qed.

(** C2. For a threshold of 24 or 1 hours, [get_registrations_for_reminder]
    returns exactly the registrations whose event date lies in
    (now, now + threshold] and whose flag for that threshold is false; a
    registration for an event dated 23 hours from now is returned by the
    24-hour check (while its 24h flag is false) and not by the 1-hour
    check. *)
Theorem due_registrations :
  forall db now,
    (forall h, h = 24%Z \/ h = 1%Z ->
       get_registrations_for_reminder db now h = listDueRegistrations db h now /\
       (forall g, In g (get_registrations_for_reminder db now h) <->
                  In g (registrations db) /\ event_due db now h g /\
                  reminder_flag h g = false)) /\
    (forall g e,
       unique_event_ids db ->
       In g (registrations db) -> In e (events db) -> e_id e = g_event_id g ->
       e_event_date e = (now + timedelta_hours 23)%Z ->
       (In g (get_registrations_for_reminder db now 24) <->
        g_reminder_1day_sent g = false) /\
       ~ In g (get_registrations_for_reminder db now 1)).
Proof.
  intros db now. split.
  - intros h Hh. split.
    + now apply get_registrations_for_reminder_spec.
    + intros g. rewrite get_registrations_for_reminder_spec by exact Hh.
      apply in_listDueRegistrations.
  - intros g e Hnd Hg He Hid Hdate. split.
    + rewrite get_registrations_for_reminder_spec by now left.
      rewrite in_listDueRegistrations. unfold reminder_flag. simpl. split.
      * tauto.
      * intros Hflag. repeat split; try assumption.
        exists e. unfold timedelta_hours in *. repeat split; try assumption; lia.
    + rewrite get_registrations_for_reminder_spec by now right.
      rewrite in_listDueRegistrations. intros [_ [[e' [He' [Hid' Hwin]]] _]].
      assert (e' = e) as ->.
      { apply (NoDup_map_inj e_id (events db)); try assumption. congruence. }
      unfold timedelta_hours in *. lia.
Qed.

(** Witness of C2, on a store whose only event is 23 hours ahead. *)
Lemma due_registrations_witness :
  get_registrations_for_reminder (db_event_at (timedelta_hours 23)) 0 24
    = [registration_1] /\
  In registration_1 (get_registrations_for_reminder (db_event_at (timedelta_hours 23)) 0 24) /\
  ~ In registration_1 (get_registrations_for_reminder (db_event_at (timedelta_hours 23)) 0 1).
Proof.
  destruct (due_registrations (db_event_at (timedelta_hours 23)) 0) as [Hspec Hscenario].
  destruct (Hspec 24%Z (or_introl eq_refl)) as [Heq _].
  destruct (Hscenario registration_1 (event_at (timedelta_hours 23))) as [Hin Hout].
  - unfold unique_event_ids. simpl. constructor; [intros [] | constructor].
  - simpl. now left.
  - simpl. now left.
  - reflexivity.
  - reflexivity.
  - split; [rewrite Heq; reflexivity | split; [now apply Hin | exact Hout]].
Defined.

(** C10. For a threshold other than 24 and 1 the result is empty, whatever
    the store holds: neither branch of the flag test accepts a row. *)
Theorem other_threshold_empty :
  forall db now h, h <> 24%Z -> h <> 1%Z ->
    get_registrations_for_reminder db now h = [].
Proof.
  intros db now h H24 H1. rewrite get_registrations_for_reminder_filter.
  apply Z.eqb_neq in H24, H1. rewrite H24, H1. simpl.
  induction (due_window db now (now + timedelta_hours h)%Z); simpl; auto.
Qed.

(** Witness of C10, on a threshold of six: an event five hours ahead lies in
    the six-hour window, yet the check returns nothing. *)
Lemma other_threshold_empty_witness :
  due_window (db_event_at (timedelta_hours 5)) 0 (0 + timedelta_hours 6)
    = [registration_1] /\
  get_registrations_for_reminder (db_event_at (timedelta_hours 5)) 0 6 = [].
Proof.
  split; [reflexivity|].
  apply (other_threshold_empty (db_event_at (timedelta_hours 5)) 0 6); discriminate.
Defined.

(** ** The [notified] flag *)

Lemma set_notified_idem e : set_notified (set_notified e) = set_notified e.
Proof. reflexivity. Qed.

Lemma set_notified_fixed e : e_notified e = true -> set_notified e = e.
Proof. destruct e; simpl; intros ->; reflexivity. Qed.

Lemma keeps_refl e : keeps e e.
Proof. now left. Qed.

Lemma keeps_trans e1 e2 e3 : keeps e1 e2 -> keeps e2 e3 -> keeps e1 e3.
Proof.
  unfold keeps. intros [-> | ->] [-> | ->]; auto.
Qed.

Lemma keeps_notified e e' : keeps e e' -> e_notified e = true -> e' = e.
Proof.
  intros [-> | ->] H; [reflexivity | now apply set_notified_fixed].
Qed.

Lemma keeps_id e e' : keeps e e' -> e_id e' = e_id e.
Proof. intros [-> | ->]; reflexivity. Qed.

Lemma Forall2_keeps_refl l : Forall2 keeps l l.
Proof. induction l; constructor; auto using keeps_refl. Qed.

Lemma Forall2_keeps_trans l1 l2 l3 :
  Forall2 keeps l1 l2 -> Forall2 keeps l2 l3 -> Forall2 keeps l1 l3.
Proof.
  intros H12. revert l3. induction H12 as [|x y l1 l2 Hxy _ IH]; intros l3 H23.
  - inversion H23. constructor.
  - inversion H23 as [|? z ? l3' Hyz H23']; subst.
    constructor; [eapply keeps_trans; eassumption | now apply IH].
Qed.

Lemma evolves_refl l : evolves l l.
Proof. exists l, []. split; [now rewrite app_nil_r | apply Forall2_keeps_refl]. Qed.

Lemma evolves_app l extra : evolves l (l ++ extra).
Proof. exists l, extra. split; [reflexivity | apply Forall2_keeps_refl]. Qed.

Lemma evolves_trans l1 l2 l3 : evolves l1 l2 -> evolves l2 l3 -> evolves l1 l3.
Proof.
  intros [k1 [x1 [-> H1]]] [k2 [x2 [-> H2]]].
  apply Forall2_app_inv_l in H2 as [k2a [k2b [Ha [Hb ->]]]].
  exists k2a, (k2b ++ x2). split.
  - now rewrite app_assoc.
  - eapply Forall2_keeps_trans; eassumption.
Qed.

Lemma mark_event_notified_evolves db event_id :
  evolves (events db) (events (mark_event_notified db event_id)).
Proof.
  simpl. eexists _, []. split; [now rewrite app_nil_r|].
  eapply Forall2_impl; [|apply update_first_rows].
  intros e e' [-> | [_ ->]]; [now left | now right].
Qed.

(** No store operation does more to the events than keep or flag a row and
    append rows. *)
Lemma run_op_evolves db op : evolves (events db) (events (run_op db op)).
Proof.
  destruct op; simpl.
  - unfold add_admin. destruct (find _ _); apply evolves_refl.
  - unfold get_or_create_user. destruct (find _ _); apply evolves_refl.
  - apply evolves_refl.
  - unfold add_event. destruct (find _ _); simpl;
      [apply evolves_refl | apply evolves_app].
  - apply mark_event_notified_evolves.
  - unfold register_for_event. destruct (find _ _); apply evolves_refl.
  - apply evolves_refl.
  - unfold update_user_subscription. destruct (find _ _); apply evolves_refl.
Qed.

Lemma run_ops_evolves ops : forall db, evolves (events db) (events (run_ops db ops)).
Proof.
  induction ops as [|op ops IH]; intros db; simpl.
  - apply evolves_refl.
  - eapply evolves_trans; [apply run_op_evolves | apply IH].
Qed.

Lemma evolves_nth l l' i e :
  evolves l l' -> nth_error l i = Some e -> e_notified e = true ->
  nth_error l' i = Some e.
Proof.
  intros [kept [extra [-> H]]]. revert i.
  induction H as [|x y l k Hxy _ IH]; intros [|i]; simpl; try discriminate.
  - intros Hx Hn. injection Hx as ->. now rewrite (keeps_notified _ _ Hxy Hn).
  - apply IH.
Qed.

Lemma evolves_find l l' event_id e :
  evolves l l' ->
  find (fun e => (e_id e =? event_id)%Z) l = Some e -> e_notified e = true ->
  find (fun e => (e_id e =? event_id)%Z) l' = Some e.
Proof.
  intros [kept [extra [-> H]]] Hfind Hn. apply find_app_some.
  induction H as [|x y l k Hxy _ IH]; simpl in *; [discriminate|].
  rewrite (keeps_id _ _ Hxy). destruct (e_id x =? event_id)%Z.
  - injection Hfind as ->. now rewrite (keeps_notified _ _ Hxy Hn).
  - now apply IH.
Qed.

(** C4. [mark_event_notified] sets the flag of the event with the given id
    and changes nothing else of it; calling it twice is calling it once; and
    no sequence of store operations changes an event whose flag is set: the
    row stays in place, equal to what it was, flag included. *)
Theorem notified_write_once :
  forall db,
    (forall event_id e,
       get_event db event_id = Some e ->
       get_event (mark_event_notified db event_id) event_id = Some (set_notified e) /\
       e_notified (set_notified e) = true) /\
    (forall event_id,
       mark_event_notified (mark_event_notified db event_id) event_id
       = mark_event_notified db event_id) /\
    (forall ops event_id e,
       get_event db event_id = Some e -> e_notified e = true ->
       get_event (run_ops db ops) event_id = Some e) /\
    (forall ops i e,
       nth_error (events db) i = Some e -> e_notified e = true ->
       nth_error (events (run_ops db ops)) i = Some e).
Proof.
  intros db. split; [|split; [|split]].
  - intros event_id e Hget. split; [|reflexivity].
    unfold get_event in *. simpl. apply find_update_first; [exact Hget|].
    apply find_some in Hget as [_ Hid]. exact Hid.
  - intros event_id. unfold mark_event_notified, with_events. simpl. f_equal.
    apply update_first_idem; [auto | apply set_notified_idem].
  - intros ops event_id e Hget Hn. unfold get_event in *.
    eapply evolves_find; [apply run_ops_evolves | eassumption | assumption].
  - intros ops i e Hnth Hn.
    eapply evolves_nth; [apply run_ops_evolves | eassumption | assumption].
Qed.

(** Witness of C4, on a store with one event: once flagged, the row survives
    further ingestion, marking, reminders and user updates unchanged. *)
Lemma notified_write_once_witness :
  get_event (mark_event_notified (db_event_at 0) 1) 1 = Some (set_notified (event_at 0)) /\
  get_event (run_ops (mark_event_notified (db_event_at 0) 1) sample_ops) 1
    = Some (set_notified (event_at 0)).
Proof.
  split.
  - apply (proj1 (notified_write_once (db_event_at 0)) 1%Z (event_at 0)). reflexivity.
  - apply (proj1 (proj2 (proj2 (notified_write_once (mark_event_notified (db_event_at 0) 1))))
             sample_ops 1%Z (set_notified (event_at 0))); reflexivity.
Defined.

(** ** The upsert of [get_or_create_user] *)

(** Counterexample to C7 as stated, on a user who has dropped the username and
    the last name: the upsert carries [None] for both, and the stored values
    stay. *)
Lemma display_fields_not_refreshed :
  ~ display_fields_refreshed db_ann 10 42 None (Some (py "Anna")) None /\
  snd (get_or_create_user db_ann 10 42 None (Some (py "Anna")) None)
  = {| u_id := 1; u_telegram_id := 42; u_username := Some (py "ann_k");
       u_first_name := Some (py "Anna"); u_last_name := Some (py "Kay");
       u_is_subscribed := false; u_created_at := 0 |}.
Proof.
  split; [|reflexivity].
  unfold display_fields_refreshed. simpl. intros [H _]. discriminate H.
Qed.

(** C7 (as the code has it). On first sight [get_or_create_user] appends a
    row with the fields of the call and [is_subscribed = true]; on an
    existing user it overwrites each display field whose argument is truthy
    and keeps the stored value of a field whose argument is [None] or empty,
    leaving the id, the subscription flag, the creation time and every other
    row and table as they were; in both cases the row returned is the row
    stored for that user. *)
Theorem get_or_create_user_spec :
  forall db now telegram_id username first_name last_name,
    let result := get_or_create_user db now telegram_id username first_name last_name in
    let db' := fst result in
    let user := snd result in
    get_user db' telegram_id = Some user /\
    resources db' = resources db /\ events db' = events db /\
    registrations db' = registrations db /\ admins db' = admins db /\
    match get_user db telegram_id with
    | None =>
      users db' = users db ++ [user] /\
      user = {| u_id := next_id (map u_id (users db)); u_telegram_id := telegram_id;
                u_username := username; u_first_name := first_name;
                u_last_name := last_name; u_is_subscribed := true;
                u_created_at := now |}
    | Some old =>
      users db' = update_first (fun u => (u_telegram_id u =? telegram_id)%Z)
                               (fun _ => user) (users db) /\
      List.length (users db') = List.length (users db) /\
      (forall i u, nth_error (users db) i = Some u -> u_telegram_id u <> telegram_id ->
                   nth_error (users db') i = Some u) /\
      u_id user = u_id old /\ u_telegram_id user = u_telegram_id old /\
      u_is_subscribed user = u_is_subscribed old /\
      u_created_at user = u_created_at old /\
      u_username user = (if truthy username then username else u_username old) /\
      u_first_name user = (if truthy first_name then first_name else u_first_name old) /\
      u_last_name user = (if truthy last_name then last_name else u_last_name old)
    end.
Proof.
  intros db now telegram_id username first_name last_name result db' user.
  subst user db' result. unfold get_user, get_or_create_user.
  destruct (find (fun u => (u_telegram_id u =? telegram_id)%Z) (users db))
    as [old|] eqn:Hfind; cbn [fst snd users resources events registrations admins with_users].
  - pose proof (find_some _ _ Hfind) as [_ Hold].
    repeat split.
    + rewrite (find_update_first _ _ _ _ Hfind); [reflexivity | exact Hold].
    + apply update_first_length.
    + intros i u Hnth Hne. apply update_first_frame; [exact Hnth|].
      now apply Z.eqb_neq.
  - repeat split.
    rewrite (find_app_none _ _ _ Hfind). simpl. now rewrite Z.eqb_refl.
Qed.

(** Witness of C7, on a store with one unsubscribed user: the upsert returns
    the stored row and keeps the flag; a new user is subscribed. *)
Lemma get_or_create_user_spec_witness :
  get_user (fst (get_or_create_user db_ann 10 42 None (Some (py "Anna")) None)) 42
    = Some (snd (get_or_create_user db_ann 10 42 None (Some (py "Anna")) None)) /\
  u_is_subscribed (snd (get_or_create_user db_ann 10 42 None (Some (py "Anna")) None))
    = false /\
  u_is_subscribed (snd (get_or_create_user db_ann 10 43 None (Some (py "Bo")) None))
    = true.
Proof.
  pose proof (get_or_create_user_spec db_ann 10 42 None (Some (py "Anna")) None) as Hold.
  pose proof (get_or_create_user_spec db_ann 10 43 None (Some (py "Bo")) None) as Hnew.
  cbv zeta in Hold, Hnew.
  destruct Hold as [Hget _]. destruct Hnew as [_ [_ [_ [_ [_ Hrow]]]]].
  split; [exact Hget | split; [reflexivity|]].
  change (get_user db_ann 43) with (@None User) in Hrow.
  destruct Hrow as [_ ->]. reflexivity.
Defined.

(** ** The two flags of [mark_reminder_sent] *)

Lemma sent_idem k g : sent k (sent k g) = sent k g.
Proof.
  unfold sent. destruct (PyStr.eqb k (py "1day")); [reflexivity|].
  destruct (PyStr.eqb k (py "1hour")); reflexivity.
Qed.

Lemma sent_id k g : g_id (sent k g) = g_id g.
Proof.
  unfold sent. destruct (PyStr.eqb k (py "1day")); [reflexivity|].
  destruct (PyStr.eqb k (py "1hour")); reflexivity.
Qed.

Lemma sent_flags k g :
  g_reminder_1day_sent (sent k g)
    = (g_reminder_1day_sent g || PyStr.eqb k (py "1day")) /\
  g_reminder_1hour_sent (sent k g)
    = (g_reminder_1hour_sent g || PyStr.eqb k (py "1hour")).
Proof.
  unfold sent. destruct (PyStr.eqb k (py "1day")) eqn:Hday.
  - apply str_eqb_eq in Hday. subst k. simpl. rewrite orb_true_r, orb_false_r. now split.
  - destruct (PyStr.eqb k (py "1hour")); simpl; rewrite ?orb_true_r, ?orb_false_r; now split.
Qed.

(** C8. [mark_reminder_sent] rewrites the registration with the given id
    only: its 24h flag becomes true exactly when the type is ['1day'] (else
    it keeps its value), its 1h flag becomes true exactly when the type is
    ['1hour'] (else it keeps its value), its other fields stay; rows with
    another id and the other tables are untouched, and a second call changes
    nothing more. *)
Theorem mark_reminder_sent_frame :
  forall db registration_id reminder_type,
    let db' := mark_reminder_sent db registration_id reminder_type in
    resources db' = resources db /\ events db' = events db /\
    users db' = users db /\ admins db' = admins db /\
    List.length (registrations db') = List.length (registrations db) /\
    (forall i g, nth_error (registrations db) i = Some g -> g_id g <> registration_id ->
                 nth_error (registrations db') i = Some g) /\
    match get_registration db registration_id with
    | None => db' = db
    | Some g =>
      exists g',
        get_registration db' registration_id = Some g' /\
        g_id g' = g_id g /\ g_user_id g' = g_user_id g /\
        g_event_id g' = g_event_id g /\ g_registered_at g' = g_registered_at g /\
        g_reminder_1day_sent g'
          = (g_reminder_1day_sent g || PyStr.eqb reminder_type (py "1day")) /\
        g_reminder_1hour_sent g'
          = (g_reminder_1hour_sent g || PyStr.eqb reminder_type (py "1hour"))
    end /\
    mark_reminder_sent db' registration_id reminder_type = db'.
Proof.
  intros db registration_id reminder_type db'. subst db'.
  unfold mark_reminder_sent, get_registration.
  fold (sent reminder_type).
  change (fun reg => sent reminder_type reg) with (sent reminder_type).
  cbn [resources events users admins registrations with_registrations].
  repeat split.
  - apply update_first_length.
  - intros i g Hnth Hne. apply update_first_frame; [exact Hnth | now apply Z.eqb_neq].
  - destruct (find (fun g => (g_id g =? registration_id)%Z) (registrations db))
      as [g|] eqn:Hfind.
    + exists (sent reminder_type g).
      pose proof (find_some _ _ Hfind) as [_ Hid].
      pose proof (sent_flags reminder_type g) as [Hday Hhour].
      repeat split; try assumption.
      * apply find_update_first; [exact Hfind | now rewrite sent_id].
      * apply sent_id.
      * unfold sent. destruct (PyStr.eqb reminder_type (py "1day")); [reflexivity|].
        destruct (PyStr.eqb reminder_type (py "1hour")); reflexivity.
      * unfold sent. destruct (PyStr.eqb reminder_type (py "1day")); [reflexivity|].
        destruct (PyStr.eqb reminder_type (py "1hour")); reflexivity.
      * unfold sent. destruct (PyStr.eqb reminder_type (py "1day")); [reflexivity|].
        destruct (PyStr.eqb reminder_type (py "1hour")); reflexivity.
    + rewrite (update_first_none _ _ _ Hfind). now destruct db.
  - unfold with_registrations. simpl. f_equal.
    apply update_first_idem; [intros x; now rewrite sent_id | apply sent_idem].
Qed.

(** Witness of C8, on a store with one registration: ['1hour'] sets the 1h
    flag and leaves the 24h flag. *)
Lemma mark_reminder_sent_frame_witness :
  registrations (mark_reminder_sent (db_event_at 0) 1 (py "1hour"))
    = [ {| g_id := 1; g_user_id := 1; g_event_id := 1; g_registered_at := 0;
           g_reminder_1day_sent := false; g_reminder_1hour_sent := true |} ] /\
  mark_reminder_sent (mark_reminder_sent (db_event_at 0) 1 (py "1hour")) 1 (py "1hour")
    = mark_reminder_sent (db_event_at 0) 1 (py "1hour").
Proof.
  split; [reflexivity|].
  apply (mark_reminder_sent_frame (db_event_at 0) 1 (py "1hour")).
Defined.

(** ** The relevance classifier *)

Lemma count_matches_le keywords text :
  (count_matches keywords text <= List.length keywords)%nat.
Proof. apply filter_length_le. Qed.

Lemma count_matches_zero keywords text :
  count_matches keywords text = 0%nat <->
  (forall keyword, In keyword keywords -> contains keyword text = false).
Proof.
  unfold count_matches. induction keywords as [|k ks IH]; simpl.
  - split; [intros _ ? [] | reflexivity].
  - destruct (contains k text) eqn:Hk; simpl.
    + split; [discriminate|]. intros H. specialize (H k (or_introl eq_refl)). congruence.
    + rewrite IH. split.
      * intros H k' [<- | Hin]; auto.
      * intros H k' Hin. apply H. now right.
Qed.



Section ClassifierFacts.

Context {case_map : CaseMap}.
Variable pyfloat : str -> fallible float.
Variable post_generate : str -> fallible Response.

Lemma _classify_with_keywords_eq text :
  _classify_with_keywords text =
  let positiveCount := count_matches positive_keywords (lower text) in
  let negativeCount := count_matches negative_keywords (lower text) in
  if (positiveCount + negativeCount =? 0)%nat then (false, 0.3%float)
  else ((negativeCount <? positiveCount)%nat && (0 <? positiveCount)%nat,
        PrimFloat.div (float_of_nat positiveCount)
                      (float_of_nat (positiveCount + negativeCount))).
Proof.
  unfold _classify_with_keywords. cbv zeta.
  destruct (count_matches positive_keywords (lower text) +
            count_matches negative_keywords (lower text))%nat eqn:Htotal;
    reflexivity.
Qed.


(** C3. The keyword heuristic is a function of the lowercased text alone.
    With [positiveCount] and [negativeCount] the numbers of keywords of the
    two lists that occur in it: if none occurs the answer is
    [(False, 0.3)]; otherwise it is
    [(positiveCount > negativeCount and positiveCount > 0,
      positiveCount / (positiveCount + negativeCount))].
    Without remote service and local model, [is_relevant_event] on a title
    that is not empty is this function of [f"{title}. {description}"[:1000]]. *)
Theorem keyword_heuristic :
  forall text,
    let positiveCount := count_matches positive_keywords (lower text) in
    let negativeCount := count_matches negative_keywords (lower text) in
    (_classify_with_keywords text =
       if (positiveCount + negativeCount =? 0)%nat then (false, 0.3%float)
       else ((negativeCount <? positiveCount)%nat && (0 <? positiveCount)%nat,
             PrimFloat.div (float_of_nat positiveCount)
                           (float_of_nat (positiveCount + negativeCount)))) /\
    ((forall keyword, In keyword (positive_keywords ++ negative_keywords) ->
                      contains keyword (lower text) = false) ->
     _classify_with_keywords text = (false, 0.3%float)) /\
    (forall text', lower text' = lower text ->
                   _classify_with_keywords text' = _classify_with_keywords text) /\
    (forall c title description,
       is_relevant_event pyfloat post_generate keyword_classifier
         (Some (c :: title)) description
       = inr (_classify_with_keywords
                (firstn 1000 ((c :: title) ++ py ". " ++ description)))).
Proof.
  intros text positiveCount negativeCount. subst positiveCount negativeCount.
  repeat split.
  - apply _classify_with_keywords_eq.
  - intros Hnone. rewrite _classify_with_keywords_eq. cbv zeta.
    assert (Hp : count_matches positive_keywords (lower text) = 0%nat).
    { apply count_matches_zero. intros k Hk. apply Hnone, in_or_app. now left. }
    assert (Hn : count_matches negative_keywords (lower text) = 0%nat).
    { apply count_matches_zero. intros k Hk. apply Hnone, in_or_app. now right. }
    now rewrite Hp, Hn.
  - intros text' Hlower. unfold _classify_with_keywords. now rewrite Hlower.
Qed.

End ClassifierFacts.

(** Witness of C3, on three texts: two positive keywords against one negative,
    no keyword at all, and a call whose text differs in case only. *)
Lemma keyword_heuristic_witness :
  @_classify_with_keywords basic_case (py "Pitch day: бизнес и дизайн")
    = (true, PrimFloat.div (float_of_nat 2) (float_of_nat 3)) /\
  @_classify_with_keywords basic_case (py "Weekly digest") = (false, 0.3%float) /\
  @is_relevant_event basic_case decimal_float post_unreachable keyword_classifier
    (Some (py "PITCH DAY: БИЗНЕС")) (py "и дизайн")
    = inr (@_classify_with_keywords basic_case (py "Pitch day: бизнес. и дизайн")).
Proof.
  destruct (@keyword_heuristic basic_case decimal_float post_unreachable
              (py "Pitch day: бизнес. и дизайн")) as [_ [_ [Hlower Hcall]]].
  split; [reflexivity | split; [reflexivity|]].
  change (py "PITCH DAY: БИЗНЕС") with (80%N :: tl (py "PITCH DAY: БИЗНЕС")).
  rewrite Hcall. apply f_equal. apply Hlower. reflexivity.
Defined.

(** Matching is by substring, not by word: the negative keyword [art]
    occurs in [startup], so a text whose only keyword is "startup" counts one
    match on each side. *)
Example startup_contains_art :
  @_classify_with_keywords basic_case (py "Startup meetup")
  = (false, PrimFloat.div (float_of_nat 1) (float_of_nat 2)).
Proof. vm_compute. reflexivity. Qed.

(** X19. The fallback chain of [__init__]: when the remote service is
    switched off or its probe fails, and the local model cannot be built,
    every call on a title that is not empty is answered by the keyword
    heuristic. *)
Lemma unavailable_backends_fall_back {case_map : CaseMap}
    (pyfloat : str -> fallible float) (post_generate : str -> fallible Response)
    (USE_OLLAMA_CLASSIFIER : bool) (test_connection : fallible Z) (e : exn)
    (c : N) (title description : str) :
  USE_OLLAMA_CLASSIFIER = false \/
  (forall code, test_connection = inr code -> code <> 200%Z) ->
  is_relevant_event pyfloat post_generate
    (EventClassifier_init USE_OLLAMA_CLASSIFIER test_connection (inl e))
    (Some (c :: title)) description
  = inr (_classify_with_keywords (firstn 1000 ((c :: title) ++ py ". " ++ description))).
Proof.
  intros Hoff.
  assert (Hinit : EventClassifier_init USE_OLLAMA_CLASSIFIER test_connection (inl e)
                  = keyword_classifier).
  { unfold EventClassifier_init.
    destruct USE_OLLAMA_CLASSIFIER; [|reflexivity].
    destruct Hoff as [Hoff | Hoff]; [discriminate|].
    destruct test_connection as [e'|code]; [reflexivity|].
    specialize (Hoff code eq_refl). apply Z.eqb_neq in Hoff.
    simpl. now rewrite Hoff. }
  rewrite Hinit. reflexivity.
Qed.

Section ClassifierTotal.

Context {case_map : CaseMap}.
Variable pyfloat : str -> fallible float.
Variable post_generate : str -> fallible Response.

(** C9. With no title, or an empty one, [is_relevant_event] answers
    [(False, 0.0)] whatever the classifier was configured with and whatever
    the remote service, the local model and the float parser would do: none
    of them, nor the keyword heuristic, takes part in the answer. *)
Theorem empty_title_not_relevant :
  forall self description,
    is_relevant_event pyfloat post_generate self None description
      = inr (false, 0%float) /\
    is_relevant_event pyfloat post_generate self (Some []) description
      = inr (false, 0%float).
Proof. intros self description. split; reflexivity. Qed.


Lemma _classify_with_ollama_cases text :
  match remote_answer post_generate text with
  | Some stripped =>
    let result := upper stripped in
    _classify_with_ollama pyfloat post_generate text =
    inr (startswith result (py "ДА"),
         answer_confidence pyfloat
           (if startswith result (py "ДА") then 0.9%float else 0.1%float) result)
  | None =>
    _classify_with_ollama pyfloat post_generate text = inr (_classify_with_keywords text)
  end.
Proof.
  unfold remote_answer, _classify_with_ollama.
  destruct (post_generate text) as [e|response]; [reflexivity|].
  cbn -[startswith py].
  destruct (status_code response =? 200)%Z; [|reflexivity].
  cbn -[startswith py].
  destruct (response_json response) as [e|result_data]; [reflexivity|].
  cbn -[startswith py].
  destruct (get_response result_data) as [e|stripped]; [reflexivity|].
  cbn -[startswith py].
  destruct (startswith (upper stripped) (py "ДА")); reflexivity.
Qed.

Lemma _classify_with_local_model_cases model text :
  match local_answer model text with
  | Some (top_label, top_score) =>
    let is_relevant := existsb (PyStr.eqb top_label) (firstn 2 candidate_labels) in
    _classify_with_local_model model text =
    inr (is_relevant, if is_relevant then top_score else (1 - top_score)%float)
  | None =>
    _classify_with_local_model model text = inr (_classify_with_keywords text)
  end.
Proof.
  unfold local_answer, _classify_with_local_model.
  destruct (model text candidate_labels) as [e|[labels scores]]; [reflexivity|].
  destruct labels as [|top_label labels]; [reflexivity|].
  destruct scores as [|top_score scores]; reflexivity.
Qed.


End ClassifierTotal.


(** ** The extractor *)

Section ParserFacts.

Context {case_map : CaseMap}.
Variable pyfloat : str -> fallible float.
Variable post_generate : str -> fallible Response.
Variable self_classifier : EventClassifier.
Variable CLASSIFIER_CONFIDENCE_THRESHOLD : float.
Variable fetch : str -> fallible Soup.
Variable _extract_date : Soup -> fallible (option datetime).
Variable _extract_location : Soup -> fallible (option str).

Let website_try :=
  _parse_website_try pyfloat post_generate self_classifier
    CLASSIFIER_CONFIDENCE_THRESHOLD fetch _extract_date _extract_location.
Let website :=
  _parse_website pyfloat post_generate self_classifier
    CLASSIFIER_CONFIDENCE_THRESHOLD fetch _extract_date _extract_location.
Let resource :=
  parse_resource pyfloat post_generate self_classifier
    CLASSIFIER_CONFIDENCE_THRESHOLD fetch _extract_date _extract_location.

(** [_parse_website] returns what its [try] collected, and the empty list if
    anything in it raised. *)
Lemma _parse_website_returns url :
  website url = inr (match website_try url with inr events => events | inl _ => [] end).
Proof.
  subst website website_try. unfold _parse_website.
  destruct (_parse_website_try _ _ _ _ _ _ _ url); reflexivity.
Qed.

Lemma fetch_raises_try url e : fetch url = inl e -> website_try url = inl e.
Proof.
  intros H. subst website_try. unfold _parse_website_try. now rewrite H.
Qed.

(** C5. [parse_resource] returns a list for every address and kind and
    never raises: the empty list for ['channel'] (and for a kind it does not
    know); for ['blog'] and ['website'] what the page yielded, and the empty
    list as soon as the fetch or any later step raised. Hence over any list
    of resources each one gets its own result. *)
Theorem parse_resource_never_raises :
  forall resource_url resource_type,
    exists events,
      resource resource_url resource_type = inr events /\
      (resource_type = py "channel" -> events = []) /\
      (resource_type = py "blog" \/ resource_type = py "website" ->
         events = match website_try resource_url with
                  | inr found => found
                  | inl _ => []
                  end /\
         (forall e, fetch resource_url = inl e -> events = []) /\
         (forall e, website_try resource_url = inl e -> events = [])) /\
      (resource_type <> py "channel" -> resource_type <> py "blog" ->
       resource_type <> py "website" -> events = []) /\
      (forall resources : list Resource,
         exists results,
           map (fun r => resource (r_url r) (r_type r)) resources = map inr results).
Proof.
  intros resource_url resource_type.
  assert (Htotal : forall u k, exists events, resource u k = inr events /\
            (PyStr.eqb k (py "channel") = true -> events = []) /\
            (PyStr.eqb k (py "channel") = false ->
             existsb (PyStr.eqb k) (map py ["blog"; "website"]%string) = true ->
             events = match website_try u with inr found => found | inl _ => [] end) /\
            (PyStr.eqb k (py "channel") = false ->
             existsb (PyStr.eqb k) (map py ["blog"; "website"]%string) = false ->
             events = [])).
  { intros u k. subst resource. unfold parse_resource.
    destruct (PyStr.eqb k (py "channel")) eqn:Hchannel.
    - exists []. repeat split; try reflexivity; discriminate.
    - destruct (existsb (PyStr.eqb k) (map py ["blog"; "website"]%string)) eqn:Hkind.
      + fold (website u). rewrite _parse_website_returns.
        eexists. repeat split; try reflexivity; discriminate.
      + exists []. repeat split; try reflexivity; discriminate. }
  destruct (Htotal resource_url resource_type) as [events [Hcall [Hc [Hw Ho]]]].
  exists events. split; [exact Hcall|]. split; [|split; [|split]].
  - intros ->. apply Hc. reflexivity.
  - intros Hkind.
    assert (Hfound : events = match website_try resource_url with
                              | inr found => found
                              | inl _ => []
                              end)
      by (destruct Hkind as [-> | ->]; apply Hw; reflexivity).
    split; [exact Hfound | split].
    + intros e He. now rewrite (fetch_raises_try _ _ He) in Hfound.
    + intros e He. now rewrite He in Hfound.
  - intros Hnc Hnb Hnw. apply Ho.
    + destruct (PyStr.eqb resource_type (py "channel")) eqn:E; [|reflexivity].
      apply str_eqb_eq in E. contradiction.
    + cbn -[py PyStr.eqb].
      destruct (PyStr.eqb resource_type (py "blog")) eqn:Eb.
      { apply str_eqb_eq in Eb. contradiction. }
      destruct (PyStr.eqb resource_type (py "website")) eqn:Ew.
      { apply str_eqb_eq in Ew. contradiction. }
      reflexivity.
  - intros resources. induction resources as [|r rs [results IH]].
    + now exists [].
    + destruct (Htotal (r_url r) (r_type r)) as [evs [Hr _]].
      exists (evs :: results). simpl. now rewrite Hr, IH.
Qed.

End ParserFacts.

(** Witness of C5, on three resources: a website that cannot be fetched, a
    blog page that yields one event, and a channel. *)
Lemma parse_resource_never_raises_witness :
  @parse_resource basic_case decimal_float post_unreachable keyword_classifier 0.6%float
    sample_fetch sample_date sample_location (py "https://down.example") (py "website")
    = inr [] /\
  @parse_resource basic_case decimal_float post_unreachable keyword_classifier 0.6%float
    sample_fetch sample_date sample_location (py "https://blog.example") (py "blog")
    = inr [ {| d_title := py "Business networking meetup"; d_description := [];
               d_event_date := 1805000000000000; d_location := None;
               d_url := py "https://blog.example" |} ] /\
  @parse_resource basic_case decimal_float post_unreachable keyword_classifier 0.6%float
    sample_fetch sample_date sample_location (py "@startups") (py "channel")
    = inr [].
Proof.
  split; [|split].
  - destruct (@parse_resource_never_raises basic_case decimal_float post_unreachable
                keyword_classifier 0.6%float sample_fetch sample_date sample_location
                (py "https://down.example") (py "website"))
      as [events [Hcall [_ [Hsite _]]]].
    destruct (Hsite (or_intror eq_refl)) as [_ [Hfetch _]].
    rewrite Hcall. f_equal. apply (Hfetch "ConnectionError"%string). reflexivity.
  - vm_compute. reflexivity.
  - destruct (@parse_resource_never_raises basic_case decimal_float post_unreachable
                keyword_classifier 0.6%float sample_fetch sample_date sample_location
                (py "@startups") (py "channel"))
      as [events [Hcall [Hchannel _]]].
    rewrite Hcall. f_equal. apply Hchannel. reflexivity.
Defined.

(** * Further properties of the store, the classifier and the extractor *)

(** ** Rows rewritten in place *)

Section Rewrites.

Context {A : Type}.
Implicit Types (p : A -> bool) (f : A -> A) (l : list A).

(** The row [update_first] rewrites is the one [find] returns. *)
Lemma update_first_map_found {B : Type} p f (g : A -> B) l x0 :
  find p l = Some x0 -> g (f x0) = g x0 -> map g (update_first p f l) = map g l.
Proof.
  induction l as [|x l IH]; simpl; [discriminate|].
  destruct (p x); simpl.
  - intros H Hg. injection H as ->. now rewrite Hg.
  - intros H Hg. now rewrite IH.
Qed.

Lemma update_first_rows_found p f l x0 :
  find p l = Some x0 ->
  Forall2 (fun x y => y = x \/ (x = x0 /\ y = f x0)) l (update_first p f l).
Proof.
  induction l as [|x l IH]; simpl; [discriminate|].
  destruct (p x).
  - intros H. injection H as ->. constructor; [now right|].
    clear. induction l; constructor; auto.
  - intros H. constructor; [now left | now apply IH].
Qed.

(** Membership among the rows the selection leaves alone. *)
Lemma in_update_first_other p f l y :
  (forall x, p x = true -> p (f x) = true) ->
  p y = false -> (In y (update_first p f l) <-> In y l).
Proof.
  intros Hp Hy. induction l as [|x l IH]; simpl; [tauto|].
  destruct (p x) eqn:Hx; simpl.
  - split; intros [H | H]; auto.
    + subst y. rewrite (Hp x Hx) in Hy. discriminate.
    + subst y. congruence.
  - rewrite IH. tauto.
Qed.

(** With distinct keys, a row of the rewritten table that carries the key
    selected is the rewrite of a row. *)
Lemma in_update_first_key (key : A -> Z) f l k y :
  NoDup (map key l) -> (forall x, key (f x) = key x) ->
  In y (update_first (fun x => (key x =? k)%Z) f l) -> key y = k ->
  exists x, In x l /\ key x = k /\ y = f x.
Proof.
  intros Hnd Hkey. induction l as [|x l IH]; simpl; [contradiction|].
  inversion Hnd as [|? ? Hnotin Hnd']; subst.
  destruct (key x =? k)%Z eqn:Hx; simpl.
  - apply Z.eqb_eq in Hx. intros [<- | Hin] Hy.
    + exists x. auto.
    + exfalso. apply Hnotin. rewrite Hx, <- Hy. now apply in_map.
  - apply Z.eqb_neq in Hx. intros [<- | Hin] Hy; [contradiction|].
    destruct (IH Hnd' Hin Hy) as [x' [Hx' [Hk ->]]]. exists x'. auto.
Qed.

(** A filter that does not see the rewrite keeps the same rows, up to a
    function that does not see it either. *)
Lemma filter_update_first_map {B : Type} p f (q : A -> bool) (g : A -> B) l :
  (forall x, q (f x) = q x) -> (forall x, g (f x) = g x) ->
  map g (filter q (update_first p f l)) = map g (filter q l).
Proof.
  intros Hq Hg. induction l as [|x l IH]; simpl; [reflexivity|].
  destruct (p x); simpl.
  - rewrite Hq. destruct (q x); simpl; [now rewrite Hg | reflexivity].
  - destruct (q x); simpl; now rewrite IH.
Qed.

Lemma find_none_not_in (key : A -> Z) l k :
  find (fun x => (key x =? k)%Z) l = None -> ~ In k (map key l).
Proof.
  induction l as [|x l IH]; simpl; [tauto|].
  destruct (key x =? k)%Z eqn:Hx; [discriminate|].
  apply Z.eqb_neq in Hx. intros H [Hk | Hin]; [contradiction | now apply IH].
Qed.

Lemma find_some_in_map (key : A -> Z) l k x :
  find (fun x => (key x =? k)%Z) l = Some x -> In k (map key l).
Proof.
  intros H. apply find_some in H as [Hin Hk]. apply Z.eqb_eq in Hk.
  rewrite <- Hk. now apply in_map.
Qed.

(** *** Tables that grow *)

Variable R : A -> A -> Prop.
Hypothesis R_refl : forall x, R x x.
Hypothesis R_trans : forall x y z, R x y -> R y z -> R x z.

Lemma Forall2_refl l : Forall2 R l l.
Proof. induction l; constructor; auto. Qed.

Lemma Forall2_trans l1 l2 l3 : Forall2 R l1 l2 -> Forall2 R l2 l3 -> Forall2 R l1 l3.
Proof.
  intros H12. revert l3. induction H12 as [|x y l1 l2 Hxy _ IH]; intros l3 H23.
  - inversion H23. constructor.
  - inversion H23 as [|? z ? l3' Hyz H23']; subst.
    constructor; [eapply R_trans; eassumption | now apply IH].
Qed.

Lemma grows_refl l : grows R l l.
Proof. exists l, []. split; [now rewrite app_nil_r | apply Forall2_refl]. Qed.

Lemma grows_app l extra : grows R l (l ++ extra).
Proof. exists l, extra. split; [reflexivity | apply Forall2_refl]. Qed.

Lemma grows_trans l1 l2 l3 : grows R l1 l2 -> grows R l2 l3 -> grows R l1 l3.
Proof.
  intros [k1 [x1 [-> H1]]] [k2 [x2 [-> H2]]].
  apply Forall2_app_inv_l in H2 as [k2a [k2b [Ha [Hb ->]]]].
  exists k2a, (k2b ++ x2). split.
  - now rewrite app_assoc.
  - eapply Forall2_trans; eassumption.
Qed.

Lemma grows_rewrite p f l :
  (forall x, R x (f x)) -> grows R l (update_first p f l).
Proof.
  intros Hf. exists (update_first p f l), []. split; [now rewrite app_nil_r|].
  eapply Forall2_impl; [|apply update_first_rows].
  intros x y [-> | [_ ->]]; auto.
Qed.

Lemma grows_nth l l' i x :
  grows R l l' -> nth_error l i = Some x ->
  exists x', nth_error l' i = Some x' /\ R x x'.
Proof.
  intros [kept [extra [-> H]]]. revert i.
  induction H as [|a b l k Hab _ IH]; intros [|i]; simpl; try discriminate.
  - intros Hx. injection Hx as ->. now exists b.
  - apply IH.
Qed.

Lemma grows_length l l' : grows R l l' -> (List.length l <= List.length l')%nat.
Proof.
  intros [kept [extra [-> H]]]. rewrite length_app.
  apply Forall2_length in H. lia.
Qed.

End Rewrites.

Lemma keys_ok_nil : keys_ok [].
Proof. split; constructor. Qed.

Lemma next_id_pos ids : (1 <= next_id ids)%Z.
Proof.
  unfold next_id. assert (0 <= fold_right Z.max 0 ids)%Z; [|lia].
  induction ids; simpl; lia.
Qed.

Lemma keys_ok_next ids : keys_ok ids -> keys_ok (ids ++ [next_id ids]).
Proof.
  intros [Hnd Hpos]. split.
  - apply NoDup_app; [exact Hnd | repeat constructor; intros [] |].
    intros x Hx [<- | []]. now apply (next_id_fresh ids).
  - apply Forall_app. split; [exact Hpos|]. repeat constructor. apply next_id_pos.
Qed.

(** ** Keys of the stores built by the operations *)

Lemma mark_reminder_sent_sent db registration_id reminder_type :
  registrations (mark_reminder_sent db registration_id reminder_type)
  = update_first (fun g => (g_id g =? registration_id)%Z) (sent reminder_type)
      (registrations db).
Proof. reflexivity. Qed.

Lemma get_or_create_user_found db now telegram_id username first_name last_name user :
  get_user db telegram_id = Some user ->
  exists user',
    get_or_create_user db now telegram_id username first_name last_name
    = (with_users db
         (update_first (fun u => (u_telegram_id u =? telegram_id)%Z) (fun _ => user')
            (users db)), user') /\
    user_keeps user user' /\ u_is_subscribed user' = u_is_subscribed user /\
    u_telegram_id user' = telegram_id.
Proof.
  unfold get_user, get_or_create_user. intros Hfind. rewrite Hfind.
  eexists. split; [reflexivity|]. apply find_some in Hfind as [_ Htg].
  apply Z.eqb_eq in Htg. repeat split; assumption.
Qed.

Lemma get_or_create_user_new db now telegram_id username first_name last_name :
  get_user db telegram_id = None ->
  get_or_create_user db now telegram_id username first_name last_name
  = (with_users db
       (users db ++
          [{| u_id := next_id (map u_id (users db)); u_telegram_id := telegram_id;
              u_username := username; u_first_name := first_name;
              u_last_name := last_name; u_is_subscribed := true;
              u_created_at := now |}]),
     {| u_id := next_id (map u_id (users db)); u_telegram_id := telegram_id;
        u_username := username; u_first_name := first_name;
        u_last_name := last_name; u_is_subscribed := true; u_created_at := now |}).
Proof.
  unfold get_user, get_or_create_user. intros Hfind. now rewrite Hfind.
Qed.

(** Each operation leaves the keys of a table as they are or appends one
    fresh key. *)
Lemma run_op_keys db op :
  let step (before after : list Z) :=
    after = before \/ after = before ++ [next_id before] in
  step (map r_id (resources db)) (map r_id (resources (run_op db op))) /\
  step (map e_id (events db)) (map e_id (events (run_op db op))) /\
  step (map u_id (users db)) (map u_id (users (run_op db op))) /\
  step (map g_id (registrations db)) (map g_id (registrations (run_op db op))) /\
  step (map a_id (admins db)) (map a_id (admins (run_op db op))).
Proof.
  intros step. subst step. destruct op; simpl.
  - unfold add_admin. destruct (find _ _); simpl; rewrite ?map_app; simpl; auto 10.
  - destruct (get_user db telegram_id) as [user|] eqn:Hfind.
    + destruct (get_or_create_user_found db now telegram_id username first_name
                  last_name user Hfind) as [user' [-> [[Hid _] _]]].
      simpl. rewrite (update_first_map_found _ _ u_id _ user Hfind Hid). auto 10.
    + rewrite (get_or_create_user_new _ _ _ _ _ _ Hfind). simpl.
      rewrite map_app. simpl. auto 10.
  - rewrite map_app. simpl. auto 10.
  - unfold add_event. destruct (find _ _); simpl; rewrite ?map_app; simpl; auto 10.
  - rewrite update_first_map by reflexivity. auto 10.
  - unfold register_for_event. destruct (find _ _); simpl; rewrite ?map_app; simpl; auto 10.
  - fold (sent reminder_type).
    rewrite update_first_map by (intros x; apply sent_id). auto 10.
  - unfold update_user_subscription. destruct (find _ _); simpl; auto 10.
    rewrite update_first_map by reflexivity. auto 10.
Qed.

Lemma run_op_unique_ids db op : unique_ids db -> unique_ids (run_op db op).
Proof.
  intros (Hr & He & Hu & Hg & Ha).
  destruct (run_op_keys db op) as (Kr & Ke & Ku & Kg & Ka).
  assert (Hstep : forall before after,
            keys_ok before -> after = before \/ after = before ++ [next_id before] ->
            keys_ok after).
  { intros before after Hok [-> | ->]; [exact Hok | now apply keys_ok_next]. }
  cbv beta zeta in Kr, Ke, Ku, Kg, Ka.
  split; [|split; [|split; [|split]]].
  - exact (Hstep _ _ Hr Kr).
  - exact (Hstep _ _ He Ke).
  - exact (Hstep _ _ Hu Ku).
  - exact (Hstep _ _ Hg Kg).
  - exact (Hstep _ _ Ha Ka).
Qed.

(** X1. In every store built from the empty one by store operations, each
    table has pairwise distinct integer keys, all at least 1: an insert
    takes a key no row of the table has. *)
Theorem reachable_unique_ids :
  forall ops, unique_ids (run_ops empty_db ops).
Proof.
  assert (H : forall ops db, unique_ids db -> unique_ids (run_ops db ops)).
  { induction ops as [|op ops IH]; intros db Hdb; simpl; [exact Hdb|].
    apply IH. now apply run_op_unique_ids. }
  intros ops. apply H. unfold unique_ids. simpl. auto 10 using keys_ok_nil.
Qed.

(** ** The unique columns *)

Lemma NoDup_snoc {B : Type} (l : list B) (x : B) :
  NoDup l -> ~ In x l -> NoDup (l ++ [x]).
Proof.
  intros Hnd Hx. apply NoDup_app; [exact Hnd | repeat constructor; intros [] |].
  intros y Hy [<- | []]. contradiction.
Qed.

Lemma run_op_unique_telegram_ids db op :
  unique_telegram_ids db -> unique_telegram_ids (run_op db op).
Proof.
  intros [Hu Ha]. unfold unique_telegram_ids. destruct op; simpl; try (split; assumption).
  - unfold add_admin. destruct (find _ _) eqn:Hfind; simpl; (split; [exact Hu|]);
      [exact Ha|].
    rewrite map_app. simpl. apply NoDup_snoc; [exact Ha|].
    now apply find_none_not_in.
  - destruct (get_user db telegram_id) as [user|] eqn:Hfind.
    + destruct (get_or_create_user_found db now telegram_id username first_name
                  last_name user Hfind) as [user' [-> [[_ [Htg _]] _]]].
      simpl. split; [|exact Ha].
      now rewrite (update_first_map_found _ _ u_telegram_id _ user Hfind Htg).
    + rewrite (get_or_create_user_new _ _ _ _ _ _ Hfind). simpl. split; [|exact Ha].
      rewrite map_app. simpl. apply NoDup_snoc; [exact Hu|].
      now apply find_none_not_in.
  - unfold add_event. destruct (find _ _); now split.
  - unfold register_for_event. destruct (find _ _); now split.
  - unfold update_user_subscription. destruct (find _ _); simpl; (split; [|exact Ha]);
      [|exact Hu].
    now rewrite update_first_map by reflexivity.
Qed.

(** X2. In every store built from the empty one by store operations no
    two users and no two admins share a telegram id: the lookups by
    telegram id find the only row there is, and no insert can break the
    unique constraint of the two columns. *)
Theorem reachable_unique_telegram_ids :
  forall ops, unique_telegram_ids (run_ops empty_db ops).
Proof.
  assert (H : forall ops db, unique_telegram_ids db -> unique_telegram_ids (run_ops db ops)).
  { induction ops as [|op ops IH]; intros db Hdb; simpl; [exact Hdb|].
    apply IH. now apply run_op_unique_telegram_ids. }
  intros ops. apply H. split; constructor.
Qed.

(** ** Registrations *)

Lemma same_pair_spec user_id event_id g :
  same_pair user_id event_id g = true <-> (g_user_id g, g_event_id g) = (user_id, event_id).
Proof.
  unfold same_pair. rewrite andb_true_iff, !Z.eqb_eq. split.
  - intros [-> ->]. reflexivity.
  - intros H. injection H as -> ->. now split.
Qed.

Lemma find_pair_not_in user_id event_id l :
  find (same_pair user_id event_id) l = None ->
  ~ In (user_id, event_id) (map (fun g => (g_user_id g, g_event_id g)) l).
Proof.
  intros Hfind Hin. apply in_map_iff in Hin as [g [Hg Hin]].
  apply (find_none _ _ Hfind) in Hin. apply same_pair_spec in Hg. congruence.
Qed.

Lemma unique_pair_count user_id event_id l :
  NoDup (map (fun g => (g_user_id g, g_event_id g)) l) ->
  (List.length (filter (same_pair user_id event_id) l) <= 1)%nat.
Proof.
  induction l as [|g l IH]; simpl; [lia|].
  intros Hnd. inversion Hnd as [|? ? Hnotin Hnd']; subst.
  destruct (same_pair user_id event_id g) eqn:Hg; [|now apply IH].
  simpl. apply same_pair_spec in Hg. rewrite Hg in Hnotin.
  destruct (find (same_pair user_id event_id) l) as [g'|] eqn:Hfind.
  - exfalso. apply Hnotin. apply find_some in Hfind as [Hin Hg'].
    apply same_pair_spec in Hg'. rewrite <- Hg'.
    now apply (in_map (fun g => (g_user_id g, g_event_id g))).
  - rewrite (find_none_filter _ _ Hfind). simpl. lia.
Qed.

Lemma run_op_unique_registrations db op :
  unique_registrations db -> unique_registrations (run_op db op).
Proof.
  unfold unique_registrations. intros Hdb. destruct op; simpl; try assumption.
  - unfold add_admin. now destruct (find _ _).
  - unfold get_or_create_user. now destruct (find _ _).
  - unfold add_event. now destruct (find _ _).
  - unfold register_for_event. fold (same_pair user_id event_id).
    destruct (find _ _) eqn:Hfind; simpl; [exact Hdb|].
    rewrite map_app. simpl. apply NoDup_snoc; [exact Hdb|].
    now apply find_pair_not_in.
  - fold (sent reminder_type). rewrite update_first_map; [exact Hdb|].
    intros g. unfold sent. destruct (PyStr.eqb _ _); [reflexivity|].
    destruct (PyStr.eqb _ _); reflexivity.
  - unfold update_user_subscription. now destruct (find _ _).
Qed.

Lemma run_ops_unique_registrations ops :
  forall db, unique_registrations db -> unique_registrations (run_ops db ops).
Proof.
  induction ops as [|op ops IH]; intros db Hdb; simpl; [exact Hdb|].
  apply IH. now apply run_op_unique_registrations.
Qed.

(** X3. Two calls of [register_for_event] with the same user and event: the
    first returns [True] exactly when the store holds no registration of the
    pair, and then appends one with both reminder flags false; the second
    returns [False] and leaves the store as the first left it. In a store
    built by store operations from the empty one the pair is then registered
    exactly once. *)
Theorem register_for_event_idempotent :
  forall db now1 now2 user_id event_id,
    let first := register_for_event db now1 user_id event_id in
    let second := register_for_event (fst first) now2 user_id event_id in
    snd second = false /\
    fst second = fst first /\
    snd first = negb (existsb (same_pair user_id event_id) (registrations db)) /\
    (if snd first
     then fst first =
          with_registrations db
            (registrations db ++
               [{| g_id := next_id (map g_id (registrations db)); g_user_id := user_id;
                   g_event_id := event_id; g_registered_at := now1;
                   g_reminder_1day_sent := false; g_reminder_1hour_sent := false |}])
     else fst first = db) /\
    (forall ops, db = run_ops empty_db ops ->
       List.length (filter (same_pair user_id event_id) (registrations (fst second)))
       = 1%nat).
Proof.
  intros db now1 now2 user_id event_id first second.
  assert (Hhit : forall d now g,
            find (same_pair user_id event_id) (registrations d) = Some g ->
            register_for_event d now user_id event_id = (d, false)).
  { intros d now g H. unfold register_for_event. fold (same_pair user_id event_id).
    now rewrite H. }
  set (row := {| g_id := next_id (map g_id (registrations db)); g_user_id := user_id;
                 g_event_id := event_id; g_registered_at := now1;
                 g_reminder_1day_sent := false; g_reminder_1hour_sent := false |}).
  assert (Hmiss : find (same_pair user_id event_id) (registrations db) = None ->
            register_for_event db now1 user_id event_id
            = (with_registrations db (registrations db ++ [row]), true)).
  { intros H. unfold register_for_event. fold (same_pair user_id event_id).
    now rewrite H. }
  subst second first. rewrite find_existsb.
  destruct (find (same_pair user_id event_id) (registrations db)) as [g|] eqn:Hfind.
  - rewrite (Hhit db now1 g Hfind). cbn [fst snd negb].
    rewrite (Hhit db now2 g Hfind). cbn [fst snd].
    split; [reflexivity | split; [reflexivity | split; [reflexivity | split; [reflexivity|]]]].
    intros ops Hops.
    assert (Hu : unique_registrations db)
      by (rewrite Hops; apply run_ops_unique_registrations; constructor).
    pose proof (find_some_filter _ _ _ Hfind).
    pose proof (unique_pair_count user_id event_id _ Hu). lia.
  - rewrite (Hmiss eq_refl). cbn [fst snd negb].
    assert (Hrow : same_pair user_id event_id row = true)
      by (unfold same_pair; simpl; now rewrite !Z.eqb_refl).
    assert (Hfind' : find (same_pair user_id event_id)
                       (registrations (with_registrations db (registrations db ++ [row])))
                     = Some row).
    { simpl. rewrite (find_app_none _ _ _ Hfind). simpl. now rewrite Hrow. }
    rewrite (Hhit _ now2 row Hfind'). cbn [fst snd].
    split; [reflexivity | split; [reflexivity | split; [reflexivity | split; [reflexivity|]]]].
    intros ops Hops. simpl.
    rewrite filter_app, (find_none_filter _ _ Hfind). simpl. now rewrite Hrow.
Qed.

Lemma unique_pair_users event_id l :
  NoDup (map (fun g => (g_user_id g, g_event_id g)) l) ->
  NoDup (map g_user_id (filter (fun g => (g_event_id g =? event_id)%Z) l)).
Proof.
  induction l as [|g l IH]; simpl; [constructor|].
  intros Hnd. inversion Hnd as [|? ? Hnotin Hnd']; subst.
  destruct (g_event_id g =? event_id)%Z eqn:Hg; [|now apply IH].
  simpl. constructor; [|now apply IH].
  intros Hin. apply Hnotin. apply in_map_iff in Hin as [g' [Hu Hin]].
  apply filter_In in Hin as [Hin He]. apply in_map_iff. exists g'. split; [|exact Hin].
  apply Z.eqb_eq in Hg, He. congruence.
Qed.

(** X4. The registrations of an event. In every store built from the empty
    one by store operations, [get_event_registrations] lists registrations
    of that event only and no user twice. [register_for_event] for the event
    adds the new registration at the end of the list when it returns [True]
    and nothing when it returns [False]; a registration for another event
    leaves the list as it was. *)
Theorem event_registrations_distinct_users :
  forall ops event_id,
    let db := run_ops empty_db ops in
    (forall g, In g (get_event_registrations db event_id) -> g_event_id g = event_id) /\
    NoDup (map g_user_id (get_event_registrations db event_id)) /\
    (forall now user_id,
       get_event_registrations (fst (register_for_event db now user_id event_id)) event_id
       = get_event_registrations db event_id ++
         (if snd (register_for_event db now user_id event_id)
          then [{| g_id := next_id (map g_id (registrations db)); g_user_id := user_id;
                   g_event_id := event_id; g_registered_at := now;
                   g_reminder_1day_sent := false; g_reminder_1hour_sent := false |}]
          else [])) /\
    (forall now user_id other, other <> event_id ->
       get_event_registrations (fst (register_for_event db now user_id other)) event_id
       = get_event_registrations db event_id).
Proof.
  intros ops event_id db. unfold get_event_registrations. split; [|split; [|split]].
  - intros g Hin. apply filter_In in Hin as [_ He]. now apply Z.eqb_eq.
  - apply unique_pair_users.
    apply (run_ops_unique_registrations ops empty_db). constructor.
  - intros now user_id. unfold register_for_event.
    destruct (find _ (registrations db)); cbn [fst snd].
    + now rewrite app_nil_r.
    + simpl. rewrite filter_app. simpl. now rewrite Z.eqb_refl.
  - intros now user_id other Hother. unfold register_for_event.
    destruct (find _ (registrations db)); cbn [fst snd]; [reflexivity|].
    simpl. rewrite filter_app. simpl.
    apply Z.eqb_neq in Hother. rewrite Hother. apply app_nil_r.
Qed.

(** ** What the operations leave of a stored row *)

Lemma reg_keeps_refl g : reg_keeps g g.
Proof. unfold reg_keeps. tauto. Qed.

Lemma reg_keeps_trans g1 g2 g3 : reg_keeps g1 g2 -> reg_keeps g2 g3 -> reg_keeps g1 g3.
Proof.
  unfold reg_keeps. intros (A1 & B1 & C1 & D1 & E1 & F1) (A2 & B2 & C2 & D2 & E2 & F2).
  repeat split; try congruence; auto.
Qed.

Lemma reg_keeps_sent k g : reg_keeps g (sent k g).
Proof.
  unfold reg_keeps, sent. destruct (PyStr.eqb k (py "1day")); [simpl; tauto|].
  destruct (PyStr.eqb k (py "1hour")); simpl; tauto.
Qed.

Lemma user_keeps_refl u : user_keeps u u.
Proof. unfold user_keeps. tauto. Qed.

Lemma user_keeps_trans u1 u2 u3 : user_keeps u1 u2 -> user_keeps u2 u3 -> user_keeps u1 u3.
Proof.
  unfold user_keeps. intros (A1 & B1 & C1) (A2 & B2 & C2). repeat split; congruence.
Qed.

Lemma grows_eq {A : Type} (l l' : list A) : grows eq l l' -> exists extra, l' = l ++ extra.
Proof.
  intros [kept [extra [-> H]]]. exists extra. f_equal.
  induction H; [reflexivity | congruence].
Qed.

Lemma run_op_grows db op :
  grows eq (resources db) (resources (run_op db op)) /\
  grows user_keeps (users db) (users (run_op db op)) /\
  grows reg_keeps (registrations db) (registrations (run_op db op)) /\
  grows eq (admins db) (admins (run_op db op)).
Proof.
  pose proof (@grows_refl Resource eq (@eq_refl Resource)) as Hr.
  pose proof (@grows_refl User user_keeps user_keeps_refl) as Hu.
  pose proof (@grows_refl EventRegistration reg_keeps reg_keeps_refl) as Hg.
  pose proof (@grows_refl Admin eq (@eq_refl Admin)) as Ha.
  destruct op; simpl.
  - unfold add_admin. destruct (find _ _); simpl; repeat split; auto.
    apply grows_app. reflexivity.
  - destruct (get_user db telegram_id) as [user|] eqn:Hfind.
    + destruct (get_or_create_user_found db now telegram_id username first_name
                  last_name user Hfind) as [user' [-> [Hkeeps _]]].
      simpl. repeat split; auto.
      eexists _, []. split; [now rewrite app_nil_r|].
      eapply Forall2_impl; [|apply (update_first_rows_found _ _ _ user Hfind)].
      intros x y [-> | [-> ->]]; [apply user_keeps_refl | exact Hkeeps].
    + rewrite (get_or_create_user_new _ _ _ _ _ _ Hfind). simpl. repeat split; auto.
      apply grows_app. apply user_keeps_refl.
  - repeat split; auto. apply grows_app. reflexivity.
  - unfold add_event. destruct (find _ _); simpl; repeat split; auto.
  - repeat split; auto.
  - unfold register_for_event. destruct (find _ _); simpl; repeat split; auto.
    apply grows_app. apply reg_keeps_refl.
  - repeat split; auto. fold (sent reminder_type).
    apply grows_rewrite; [apply reg_keeps_refl | apply reg_keeps_sent].
  - unfold update_user_subscription. destruct (find _ _); simpl; repeat split; auto.
    apply grows_rewrite; [apply user_keeps_refl|]. intros x. unfold user_keeps. simpl. tauto.
Qed.

Lemma run_ops_grows ops :
  forall db,
    grows eq (resources db) (resources (run_ops db ops)) /\
    grows user_keeps (users db) (users (run_ops db ops)) /\
    grows reg_keeps (registrations db) (registrations (run_ops db ops)) /\
    grows eq (admins db) (admins (run_ops db ops)).
Proof.
  induction ops as [|op ops IH]; intros db; simpl.
  - repeat split; apply grows_refl;
      auto using user_keeps_refl, reg_keeps_refl.
  - destruct (run_op_grows db op) as (R1 & U1 & G1 & A1).
    destruct (IH (run_op db op)) as (R2 & U2 & G2 & A2).
    repeat split.
    + eapply grows_trans; [|exact R1|exact R2]. intros; congruence.
    + eapply grows_trans; [exact user_keeps_trans|exact U1|exact U2].
    + eapply grows_trans; [exact reg_keeps_trans|exact G1|exact G2].
    + eapply grows_trans; [|exact A1|exact A2]. intros; congruence.
Qed.

(** X5. No sequence of store operations deletes or moves a registration or
    changes its user, event or registration time, and neither reminder flag
    is ever reset: a registration differs later at most by flags that went
    from false to true. *)
Theorem reminder_flags_write_once :
  forall db ops i g,
    nth_error (registrations db) i = Some g ->
    exists g',
      nth_error (registrations (run_ops db ops)) i = Some g' /\
      g_id g' = g_id g /\ g_user_id g' = g_user_id g /\ g_event_id g' = g_event_id g /\
      g_registered_at g' = g_registered_at g /\
      (g_reminder_1day_sent g = true -> g_reminder_1day_sent g' = true) /\
      (g_reminder_1hour_sent g = true -> g_reminder_1hour_sent g' = true).
Proof.
  intros db ops i g Hnth.
  destruct (run_ops_grows ops db) as (_ & _ & Hg & _).
  destruct (grows_nth _ _ _ _ _ Hg Hnth) as [g' [Hnth' Hkeeps]].
  exists g'. split; [exact Hnth' | exact Hkeeps].
Qed.

(** Witness of X5, on a registration whose day reminder was sent before the
    sample operations ran. *)
Lemma reminder_flags_write_once_witness :
  exists g',
    nth_error (registrations (run_ops (mark_reminder_sent (db_event_at 0) 1 (py "1day"))
                                sample_ops)) 0 = Some g' /\
    g_reminder_1day_sent g' = true.
Proof.
  destruct (reminder_flags_write_once
              (mark_reminder_sent (db_event_at 0) 1 (py "1day")) sample_ops 0
              (set_1day registration_1) eq_refl) as [g' [Hnth [_ [_ [_ [_ [Hday _]]]]]]].
  exists g'. split; [exact Hnth | now apply Hday].
Defined.

(** X6. The store is append-only. Over any sequence of store operations the
    resources and the admins of a store stay as they are, in place, with
    rows only added behind them; an event stays in place and differs at most
    by its [notified] flag having been set; a user stays in place with the
    id, the telegram id and the creation time it had. *)
Theorem store_append_only :
  forall db ops,
    (exists extra, resources (run_ops db ops) = resources db ++ extra) /\
    (exists extra, admins (run_ops db ops) = admins db ++ extra) /\
    (forall i e, nth_error (events db) i = Some e ->
       exists e', nth_error (events (run_ops db ops)) i = Some e' /\
                  (e' = e \/ e' = set_notified e)) /\
    (forall i u, nth_error (users db) i = Some u ->
       exists u', nth_error (users (run_ops db ops)) i = Some u' /\
                  u_id u' = u_id u /\ u_telegram_id u' = u_telegram_id u /\
                  u_created_at u' = u_created_at u).
Proof.
  intros db ops. destruct (run_ops_grows ops db) as (Hr & Hu & _ & Ha).
  split; [now apply grows_eq | split; [now apply grows_eq | split]].
  - intros i e Hnth.
    exact (grows_nth keeps _ _ _ _ (run_ops_evolves ops db) Hnth).
  - intros i u Hnth. exact (grows_nth user_keeps _ _ _ _ Hu Hnth).
Qed.

(** Witness of X6, on the sample operations run over a store with one
    event. *)
Lemma store_append_only_witness :
  exists e',
    nth_error (events (run_ops (db_event_at 0) sample_ops)) 0 = Some e' /\
    (e' = event_at 0 \/ e' = set_notified (event_at 0)).
Proof.
  exact (proj1 (proj2 (proj2 (store_append_only (db_event_at 0) sample_ops)))
           0%nat (event_at 0) eq_refl).
Defined.

(** ** Reminders are not repeated *)

Lemma reminder_flag_sent reminder_type hours_before g :
  job_flag reminder_type hours_before ->
  reminder_flag hours_before (sent reminder_type g) = true.
Proof. intros [[-> ->] | [-> ->]]; reflexivity. Qed.

Lemma get_registrations_for_reminder_test db now h :
  get_registrations_for_reminder db now h = filter (due_test db now h) (registrations db).
Proof.
  rewrite get_registrations_for_reminder_filter. unfold due_window.
  now rewrite filter_filter.
Qed.

Lemma due_test_flag db now h g :
  h = 24%Z \/ h = 1%Z -> due_test db now h g = true -> reminder_flag h g = false.
Proof.
  unfold due_test, reminder_flag. intros Hh H.
  apply andb_true_iff in H as [_ H].
  destruct Hh as [-> | ->]; simpl in H.
  - rewrite orb_false_r in H. now apply negb_true_iff.
  - now apply negb_true_iff.
Qed.

Lemma due_test_other reminder_type hours_before db now h g :
  job_flag reminder_type hours_before -> h <> hours_before ->
  due_test db now h (sent reminder_type g) = due_test db now h g.
Proof.
  intros [[-> ->] | [-> ->]] Hh; apply Z.eqb_neq in Hh; unfold due_test;
    change (sent (py "1day") g) with (set_1day g);
    change (sent (py "1hour") g) with (set_1hour g); simpl; now rewrite Hh.
Qed.

(** X7. Once [mark_reminder_sent] has run for a registration and a job
    ('1day' with 24 hours, '1hour' with 1 hour), that job's query no longer
    returns the registration, returns every other registration exactly as
    before, and the query of any other threshold returns the same
    registrations as before. Registration ids are taken distinct, as they
    are in every store the operations build. *)
Theorem reminder_not_repeated :
  forall db now registration_id reminder_type hours_before,
    job_flag reminder_type hours_before ->
    NoDup (map g_id (registrations db)) ->
    let db' := mark_reminder_sent db registration_id reminder_type in
    (forall g, In g (get_registrations_for_reminder db' now hours_before) ->
               g_id g <> registration_id) /\
    (forall g, g_id g <> registration_id ->
       (In g (get_registrations_for_reminder db' now hours_before) <->
        In g (get_registrations_for_reminder db now hours_before))) /\
    (forall h, h <> hours_before ->
       map g_id (get_registrations_for_reminder db' now h)
       = map g_id (get_registrations_for_reminder db now h)).
Proof.
  intros db now registration_id reminder_type hours_before Hjob Hnd db'.
  assert (Hh : hours_before = 24%Z \/ hours_before = 1%Z)
    by (destruct Hjob as [[_ ->] | [_ ->]]; auto).
  assert (Htest : forall h g, due_test db' now h g = due_test db now h g) by reflexivity.
  subst db'. split; [|split].
  - intros g Hin Hid. rewrite get_registrations_for_reminder_test in Hin.
    apply filter_In in Hin as [Hin Hdue]. rewrite mark_reminder_sent_sent in Hin.
    destruct (in_update_first_key g_id _ _ _ _ Hnd (sent_id reminder_type) Hin Hid)
      as [x [_ [_ ->]]].
    apply (due_test_flag _ _ _ _ Hh) in Hdue.
    rewrite (reminder_flag_sent _ _ x Hjob) in Hdue. discriminate.
  - intros g Hid. rewrite !get_registrations_for_reminder_test, !filter_In, Htest.
    rewrite mark_reminder_sent_sent.
    rewrite (in_update_first_other (fun g => (g_id g =? registration_id)%Z)).
    + tauto.
    + intros x Hx. now rewrite sent_id.
    + now apply Z.eqb_neq.
  - intros h Hne. rewrite !get_registrations_for_reminder_test, mark_reminder_sent_sent.
    rewrite (filter_update_first_map _ (sent reminder_type) (due_test db now h) g_id).
    + reflexivity.
    + intros x. now apply (due_test_other reminder_type hours_before).
    + apply sent_id.
Qed.

(** Witness of X7, on an event 23 hours ahead: the registration is due for
    the day reminder until it is marked. *)
Lemma reminder_not_repeated_witness :
  get_registrations_for_reminder (db_event_at (timedelta_hours 23)) 0 24 = [registration_1] /\
  forall g, In g (get_registrations_for_reminder
                    (mark_reminder_sent (db_event_at (timedelta_hours 23)) 1 (py "1day")) 0 24) ->
            g_id g <> 1%Z.
Proof.
  assert (Hjob : job_flag (py "1day") 24) by (left; split; reflexivity).
  assert (Hnd : NoDup (map g_id (registrations (db_event_at (timedelta_hours 23)))))
    by (simpl; constructor; [intros [] | constructor]).
  pose proof (reminder_not_repeated (db_event_at (timedelta_hours 23)) 0 1 (py "1day") 24
                Hjob Hnd) as H.
  cbv zeta in H. destruct H as [Hgone _].
  split; [reflexivity | exact Hgone].
Defined.

(** ** The registration button *)

Lemma register_for_event_registered db now user_id event_id :
  let db' := fst (register_for_event db now user_id event_id) in
  (exists g, find (same_pair user_id event_id) (registrations db') = Some g) /\
  resources db' = resources db /\ events db' = events db /\
  users db' = users db /\ admins db' = admins db.
Proof.
  unfold register_for_event. fold (same_pair user_id event_id).
  destruct (find (same_pair user_id event_id) (registrations db)) as [g|] eqn:Hfind;
    cbn [fst].
  - repeat split. now exists g.
  - repeat split. eexists. simpl. rewrite (find_app_none _ _ _ Hfind). simpl.
    unfold same_pair. simpl. now rewrite !Z.eqb_refl.
Qed.

Lemma get_or_create_user_stored db now telegram_id username first_name last_name :
  get_user (fst (get_or_create_user db now telegram_id username first_name last_name))
           telegram_id
  = Some (snd (get_or_create_user db now telegram_id username first_name last_name)) /\
  registrations (fst (get_or_create_user db now telegram_id username first_name last_name))
  = registrations db.
Proof.
  pose proof (get_or_create_user_spec db now telegram_id username first_name last_name) as H.
  cbv zeta in H. destruct H as (Hget & _ & _ & Hregs & _). now split.
Qed.

(** X8. When the registration button of an event is pressed twice by the
    same sender, the second press answers "already registered" and leaves
    the registrations as the first press left them, even if the sender's
    display fields changed in between. *)
Theorem register_callback_twice :
  forall db now1 now1' now2 now2' telegram_id
         username1 first_name1 last_name1 username2 first_name2 last_name2 event_id,
    let first := register_callback db now1 now1' telegram_id
                   username1 first_name1 last_name1 event_id in
    let second := register_callback (fst first) now2 now2' telegram_id
                    username2 first_name2 last_name2 event_id in
    snd second = false /\
    registrations (fst second) = registrations (fst first) /\
    List.length (users (fst second)) = List.length (users (fst first)).
Proof.
  intros db now1 now1' now2 now2' telegram_id username1 first_name1 last_name1
         username2 first_name2 last_name2 event_id first second.
  subst second first. unfold register_callback.
  destruct (get_or_create_user db now1 telegram_id username1 first_name1 last_name1)
    as [db1 user1] eqn:Hupsert1.
  pose proof (get_or_create_user_stored db now1 telegram_id username1 first_name1
                last_name1) as [Hstored1 _].
  rewrite Hupsert1 in Hstored1. cbn [fst snd] in Hstored1.
  pose proof (register_for_event_registered db1 now1' (u_id user1) event_id) as Hreg.
  cbv zeta in Hreg. destruct Hreg as ([g Hg] & _ & _ & Husers & _).
  set (db1' := fst (register_for_event db1 now1' (u_id user1) event_id)) in *.
  assert (Hfound : get_user db1' telegram_id = Some user1)
    by (unfold get_user; rewrite Husers; exact Hstored1).
  destruct (get_or_create_user_found db1' now2 telegram_id username2 first_name2
              last_name2 user1 Hfound) as [user2 [Hupsert2 [[Hid _] _]]].
  rewrite Hupsert2. rewrite Hid.
  unfold register_for_event. fold (same_pair (u_id user1) event_id).
  cbn [registrations with_users]. rewrite Hg. cbn [fst snd registrations users with_users].
  repeat split. apply update_first_length.
Qed.

(** ** Admins *)

Lemma is_admin_spec db telegram_id :
  is_admin db telegram_id = true <-> In telegram_id (map a_telegram_id (admins db)).
Proof.
  unfold is_admin.
  destruct (find (fun a => (a_telegram_id a =? telegram_id)%Z) (admins db)) eqn:Hfind.
  - split; [intros _; now apply (find_some_in_map a_telegram_id _ _ _ Hfind) | reflexivity].
  - split; [discriminate|]. intros Hin. now apply (find_none_not_in a_telegram_id) in Hfind.
Qed.

Lemma is_admin_ext db db' :
  map a_telegram_id (admins db') = map a_telegram_id (admins db) ->
  forall t, is_admin db' t = is_admin db t.
Proof.
  intros Heq t. destruct (is_admin db t) eqn:H.
  - apply is_admin_spec. rewrite Heq. now apply is_admin_spec.
  - destruct (is_admin db' t) eqn:H'; [|reflexivity].
    apply is_admin_spec in H'. rewrite Heq in H'. apply is_admin_spec in H'. congruence.
Qed.

(** X9. [add_admin] returns [True] exactly when the id was no admin, after
    it the id is an admin and every other id is one exactly if it was; a
    second call for the id returns [False] and changes nothing; the other
    tables are never touched. *)
Theorem add_admin_is_admin :
  forall db now now' telegram_id,
    let result := add_admin db now telegram_id in
    snd result = negb (is_admin db telegram_id) /\
    is_admin (fst result) telegram_id = true /\
    (forall other, other <> telegram_id ->
                   is_admin (fst result) other = is_admin db other) /\
    add_admin (fst result) now' telegram_id = (fst result, false) /\
    resources (fst result) = resources db /\ events (fst result) = events db /\
    users (fst result) = users db /\ registrations (fst result) = registrations db.
Proof.
  intros db now now' telegram_id result. subst result.
  assert (Hhit : forall d t a, find (fun a => (a_telegram_id a =? telegram_id)%Z) (admins d)
                             = Some a ->
                             add_admin d t telegram_id = (d, false) /\
                             is_admin d telegram_id = true).
  { intros d t a H. unfold add_admin, is_admin. now rewrite H. }
  destruct (find (fun a => (a_telegram_id a =? telegram_id)%Z) (admins db)) as [a|] eqn:Hfind.
  - destruct (Hhit db now a Hfind) as [Hadd Hadmin].
    destruct (Hhit db now' a Hfind) as [Hadd' _].
    rewrite Hadd, Hadmin. cbn [fst snd negb]. rewrite Hadd'.
    repeat split; auto.
  - set (admin := {| a_id := next_id (map a_id (admins db));
                     a_telegram_id := telegram_id; a_created_at := now |}).
    assert (Hadd : add_admin db now telegram_id
                   = (with_admins db (admins db ++ [admin]), true))
      by (unfold add_admin; now rewrite Hfind).
    assert (Hno : is_admin db telegram_id = false)
      by (unfold is_admin; now rewrite Hfind).
    assert (Hnew : find (fun a => (a_telegram_id a =? telegram_id)%Z)
                     (admins (with_admins db (admins db ++ [admin]))) = Some admin).
    { simpl. rewrite (find_app_none _ _ _ Hfind). simpl. now rewrite Z.eqb_refl. }
    destruct (Hhit _ now' admin Hnew) as [Hadd' Hadmin'].
    rewrite Hadd, Hno. cbn [fst snd negb]. rewrite Hadd', Hadmin'.
    split; [reflexivity | split; [reflexivity | split; [|repeat split]]].
    intros other Hother. unfold is_admin. simpl.
    destruct (find (fun a => (a_telegram_id a =? other)%Z) (admins db)) as [a|] eqn:Ho.
    + now rewrite (find_app_some _ _ _ _ Ho).
    + rewrite (find_app_none _ _ _ Ho). simpl.
      destruct (telegram_id =? other)%Z eqn:E; [|reflexivity].
      apply Z.eqb_eq in E. congruence.
Qed.

Lemma init_admins_cons db call calls :
  init_admins db (call :: calls) = init_admins (fst (add_admin db (fst call) (snd call))) calls.
Proof. reflexivity. Qed.

Lemma init_admins_keeps calls :
  forall db t, is_admin db t = true -> is_admin (init_admins db calls) t = true.
Proof.
  induction calls as [|call calls IH]; intros db t Ht; [exact Ht|].
  rewrite init_admins_cons. apply IH.
  destruct (add_admin_is_admin db (fst call) 0 (snd call)) as (_ & Hself & Hother & _).
  destruct (Z.eq_dec t (snd call)) as [-> | Hne]; [exact Hself|].
  now rewrite (Hother t Hne).
Qed.

Lemma init_admins_nothing_new calls :
  forall db, (forall t, In t (map snd calls) -> is_admin db t = true) ->
             init_admins db calls = db.
Proof.
  induction calls as [|call calls IH]; intros db Hall; [reflexivity|].
  rewrite init_admins_cons.
  assert (Hcall : add_admin db (fst call) (snd call) = (db, false)).
  { specialize (Hall (snd call) (or_introl eq_refl)).
    unfold is_admin in Hall. unfold add_admin.
    destruct (find _ _); [reflexivity | discriminate]. }
  rewrite Hcall. apply IH. intros t Ht. apply Hall. now right.
Qed.

(** X10. After the loop of [main] over [ADMIN_IDS] every configured id is a
    stored admin and whoever was one still is, every other id is one exactly
    if it was, and from then on the admin test of the handlers is the
    store's alone. Running the loop again, as at every restart, changes
    nothing. *)
Theorem init_admins_spec :
  forall db calls,
    let db' := init_admins db calls in
    (forall t, In t (map snd calls) \/ is_admin db t = true -> is_admin db' t = true) /\
    (forall t, ~ In t (map snd calls) -> is_admin db' t = is_admin db t) /\
    (forall user_id, rejected db' (map snd calls) user_id = negb (is_admin db' user_id)) /\
    (forall calls', map snd calls' = map snd calls -> init_admins db' calls' = db').
Proof.
  intros db calls db'. subst db'.
  assert (Hin : forall calls db t, In t (map snd calls) ->
                                   is_admin (init_admins db calls) t = true).
  { clear. induction calls as [|call calls IH]; intros db t Ht; [contradiction|].
    rewrite init_admins_cons. destruct Ht as [<- | Ht].
    - apply init_admins_keeps.
      now destruct (add_admin_is_admin db (fst call) 0 (snd call)) as (_ & Hself & _).
    - now apply IH. }
  assert (Hout : forall calls db t, ~ In t (map snd calls) ->
                                    is_admin (init_admins db calls) t = is_admin db t).
  { clear. induction calls as [|call calls IH]; intros db t Hnot; [reflexivity|].
    rewrite init_admins_cons.
    assert (Hne : t <> snd call) by (intros ->; apply Hnot; now left).
    assert (Hrest : ~ In t (map snd calls)) by (intros H; apply Hnot; now right).
    rewrite (IH _ t Hrest).
    destruct (add_admin_is_admin db (fst call) 0 (snd call)) as (_ & _ & Hother & _).
    now apply Hother. }
  split; [|split; [|split]].
  - intros t [Ht | Ht]; [now apply Hin | now apply init_admins_keeps].
  - intros t. apply Hout.
  - intros user_id. unfold rejected.
    destruct (existsb (Z.eqb user_id) (map snd calls)) eqn:Hex; simpl.
    + apply existsb_exists in Hex as [t [Ht Heq]]. apply Z.eqb_eq in Heq. subst t.
      now rewrite (Hin calls db user_id Ht).
    + apply andb_true_r.
  - intros calls' Hsame. apply init_admins_nothing_new.
    intros t Ht. apply Hin. now rewrite <- Hsame.
Qed.

(** ** Subscriptions *)

Lemma get_or_create_user_others db now telegram_id username first_name last_name u :
  u_telegram_id u <> telegram_id ->
  (In u (users (fst (get_or_create_user db now telegram_id username first_name last_name)))
   <-> In u (users db)).
Proof.
  intros Hne. destruct (get_user db telegram_id) as [user|] eqn:Hfind.
  - destruct (get_or_create_user_found db now telegram_id username first_name
                last_name user Hfind) as [user' [-> [_ [_ Htg]]]].
    cbn [fst users with_users].
    apply (in_update_first_other (fun u => (u_telegram_id u =? telegram_id)%Z)).
    + intros _ _. rewrite Htg. apply Z.eqb_refl.
    + now apply Z.eqb_neq.
  - rewrite (get_or_create_user_new _ _ _ _ _ _ Hfind). cbn [fst users with_users].
    rewrite in_app_iff. simpl. split; [|tauto].
    intros [H | [<- | []]]; [exact H | simpl in Hne; contradiction].
Qed.

Lemma get_or_create_user_unique db now telegram_id username first_name last_name :
  NoDup (map u_telegram_id (users db)) ->
  NoDup (map u_telegram_id
           (users (fst (get_or_create_user db now telegram_id username first_name
                          last_name)))).
Proof.
  intros Hnd. destruct (get_user db telegram_id) as [user|] eqn:Hfind.
  - destruct (get_or_create_user_found db now telegram_id username first_name
                last_name user Hfind) as [user' [-> [[_ [Htg _]] _]]].
    cbn [fst users with_users].
    now rewrite (update_first_map_found _ _ u_telegram_id _ user Hfind Htg).
  - rewrite (get_or_create_user_new _ _ _ _ _ _ Hfind). cbn [fst users with_users].
    rewrite map_app. simpl. apply NoDup_snoc; [exact Hnd|].
    now apply find_none_not_in.
Qed.

Lemma update_user_subscription_found db telegram_id is_subscribed user :
  get_user db telegram_id = Some user ->
  update_user_subscription db telegram_id is_subscribed
  = (with_users db
       (update_first (fun u => (u_telegram_id u =? telegram_id)%Z)
          (set_subscribed is_subscribed) (users db)), true).
Proof. unfold get_user, update_user_subscription. intros H. now rewrite H. Qed.

Lemma set_subscription_eq b db now telegram_id username first_name last_name :
  exists user,
    get_user (fst (get_or_create_user db now telegram_id username first_name last_name))
             telegram_id = Some user /\
    users (set_subscription b db now telegram_id username first_name last_name)
    = update_first (fun u => (u_telegram_id u =? telegram_id)%Z) (set_subscribed b)
        (users (fst (get_or_create_user db now telegram_id username first_name last_name))).
Proof.
  destruct (get_or_create_user_stored db now telegram_id username first_name last_name)
    as [Hstored _].
  eexists. split; [exact Hstored|].
  unfold set_subscription, subscribe, unsubscribe.
  destruct b; rewrite (update_user_subscription_found _ _ _ _ Hstored); reflexivity.
Qed.

(** X11. After [unsubscribe] the sender is not among the subscribed users,
    after [subscribe] the sender is, and either way every user with another
    telegram id is listed exactly if it was; an update for a telegram id the
    store does not know returns [False] and changes nothing. Telegram ids
    are taken distinct, as they are in every store the operations build. *)
Theorem subscription_toggle :
  forall db now telegram_id username first_name last_name,
    NoDup (map u_telegram_id (users db)) ->
    (forall u, In u (get_subscribed_users
                       (unsubscribe db now telegram_id username first_name last_name)) ->
               u_telegram_id u <> telegram_id) /\
    (exists u, In u (get_subscribed_users
                       (subscribe db now telegram_id username first_name last_name)) /\
               u_telegram_id u = telegram_id) /\
    (forall b u, u_telegram_id u <> telegram_id ->
       (In u (get_subscribed_users
                (set_subscription b db now telegram_id username first_name last_name)) <->
        In u (get_subscribed_users db))) /\
    (forall b, get_user db telegram_id = None ->
               update_user_subscription db telegram_id b = (db, false)).
Proof.
  intros db now telegram_id username first_name last_name Hnd.
  pose proof (get_or_create_user_unique db now telegram_id username first_name last_name Hnd)
    as Hnd1.
  split; [|split; [|split]].
  - intros u Hin Htg.
    destruct (set_subscription_eq false db now telegram_id username first_name last_name)
      as [user [_ Husers]].
    unfold set_subscription in Husers. unfold get_subscribed_users in Hin.
    apply filter_In in Hin as [Hin Hsub]. rewrite Husers in Hin.
    destruct (in_update_first_key u_telegram_id (set_subscribed false) _ _ _ Hnd1
                (fun x => eq_refl) Hin Htg) as [x [_ [_ ->]]].
    discriminate.
  - destruct (set_subscription_eq true db now telegram_id username first_name last_name)
      as [user [Hstored Husers]].
    unfold set_subscription in Husers.
    exists (set_subscribed true user).
    pose proof (find_some _ _ Hstored) as [_ Htg].
    split; [|now apply Z.eqb_eq in Htg].
    unfold get_subscribed_users. apply filter_In. split; [|reflexivity].
    rewrite Husers.
    apply (find_some (fun u => (u_telegram_id u =? telegram_id)%Z)).
    apply find_update_first; [exact Hstored | exact Htg].
  - intros b u Hne.
    destruct (set_subscription_eq b db now telegram_id username first_name last_name)
      as [user [_ Husers]].
    unfold get_subscribed_users. rewrite !filter_In, Husers.
    rewrite (in_update_first_other (fun u => (u_telegram_id u =? telegram_id)%Z)).
    + now rewrite get_or_create_user_others.
    + intros x Hx. exact Hx.
    + now apply Z.eqb_neq.
  - intros b Hnone. unfold get_user in Hnone. unfold update_user_subscription.
    now rewrite Hnone.
Qed.

(** Witness of X11, on a store with one user. *)
Lemma subscription_toggle_witness :
  (forall u, In u (get_subscribed_users (unsubscribe db_ann 5 42 None None None)) ->
             u_telegram_id u <> 42%Z) /\
  (exists u, In u (get_subscribed_users (subscribe db_ann 5 42 None None None)) /\
             u_telegram_id u = 42%Z).
Proof.
  assert (Hnd : NoDup (map u_telegram_id (users db_ann)))
    by (simpl; constructor; [intros [] | constructor]).
  pose proof (subscription_toggle db_ann 5 42 None None None Hnd) as H.
  destruct H as [Hout [Hin _]]. split; [exact Hout | exact Hin].
Defined.

(** ** The events waiting for their notification *)

(** X12. An event that [add_event] inserts joins the end of
    [get_unnotified_events]; [mark_event_notified] removes the event with
    the given id from that list and leaves every other event in or out of it
    as it was. Event ids are taken distinct, as they are in every store the
    operations build. *)
Theorem unnotified_queue :
  forall db,
    (forall now rid title desc date loc url,
       match snd (add_event db now rid title desc date loc url) with
       | Some e =>
         get_unnotified_events (fst (add_event db now rid title desc date loc url))
         = get_unnotified_events db ++ [e]
       | None => fst (add_event db now rid title desc date loc url) = db
       end) /\
    (forall event_id,
       NoDup (map e_id (events db)) ->
       (forall e, In e (get_unnotified_events (mark_event_notified db event_id)) ->
                  e_id e <> event_id) /\
       (forall e, e_id e <> event_id ->
          (In e (get_unnotified_events (mark_event_notified db event_id)) <->
           In e (get_unnotified_events db)))).
Proof.
  intros db. split.
  - intros now rid title desc date loc url. unfold add_event.
    destruct (find (same_key rid title date) (events db)); cbn [fst snd]; [reflexivity|].
    unfold get_unnotified_events. simpl. now rewrite filter_app.
  - intros event_id Hnd. unfold get_unnotified_events, mark_event_notified. simpl. split.
    + intros e Hin Hid. apply filter_In in Hin as [Hin Hflag].
      destruct (in_update_first_key e_id set_notified _ _ _ Hnd (fun x => eq_refl) Hin Hid)
        as [x [_ [_ ->]]].
      discriminate.
    + intros e Hne. rewrite !filter_In.
      rewrite (in_update_first_other (fun e => (e_id e =? event_id)%Z)).
      * tauto.
      * intros x Hx. exact Hx.
      * now apply Z.eqb_neq.
Qed.

(** Witness of X12, on a store with one event waiting. *)
Lemma unnotified_queue_witness :
  get_unnotified_events (db_event_at 0) = [event_at 0] /\
  forall e, In e (get_unnotified_events (mark_event_notified (db_event_at 0) 1)) ->
            e_id e <> 1%Z.
Proof.
  assert (Hnd : NoDup (map e_id (events (db_event_at 0))))
    by (simpl; constructor; [intros [] | constructor]).
  pose proof (proj2 (unnotified_queue (db_event_at 0)) 1%Z Hnd) as [Hgone _].
  split; [reflexivity | exact Hgone].
Defined.

(** ** Resources *)

Lemma run_op_resources db op :
  resources (run_op db op) = resources db \/
  exists now name url resource_type,
    resources (run_op db op)
    = resources db ++ [snd (add_resource db now name url resource_type)].
Proof.
  destruct op; simpl; auto.
  - left. unfold add_admin. now destruct (find _ _).
  - left. unfold get_or_create_user. now destruct (find _ _).
  - right. now exists now, name, url, resource_type.
  - left. unfold add_event. now destruct (find _ _).
  - left. unfold register_for_event. now destruct (find _ _).
  - left. unfold update_user_subscription. now destruct (find _ _).
Qed.

(** X13. No store operation deactivates a resource: in every store built
    from the empty one [get_active_resources] returns all the resources, in
    the order they were added, and a resource that [add_resource] stores is
    the last of them from then on until the next is added. *)
Theorem resources_stay_active :
  (forall ops,
     get_active_resources (run_ops empty_db ops) = resources (run_ops empty_db ops)) /\
  (forall db now name url resource_type,
     get_active_resources (fst (add_resource db now name url resource_type))
     = get_active_resources db ++ [snd (add_resource db now name url resource_type)]).
Proof.
  split.
  - assert (H : forall ops db, get_active_resources db = resources db ->
                  get_active_resources (run_ops db ops) = resources (run_ops db ops)).
    { induction ops as [|op ops IH]; intros db Hdb; simpl; [exact Hdb|].
      apply IH. unfold get_active_resources in *.
      destruct (run_op_resources db op) as [-> | [now [name [url [kind ->]]]]];
        [exact Hdb|].
      rewrite filter_app, Hdb. reflexivity. }
    intros ops. now apply H.
  - intros db now name url resource_type. unfold get_active_resources. simpl.
    now rewrite filter_app.
Qed.

(** X14. The command that adds a resource changes the store only for a
    sender who is a stored admin or one of [ADMIN_IDS], who gave at least
    three arguments, the third being 'channel', 'blog' or 'website'; it then
    appends one active resource with the first three arguments as name,
    address and kind, and touches no other table. *)
Theorem add_resource_command_guarded :
  forall db now ADMIN_IDS user_id args,
    let db' := add_resource_command db now ADMIN_IDS user_id args in
    db' = db \/
    (is_admin db user_id = true \/ In user_id ADMIN_IDS) /\
    exists name url resource_type rest,
      args = name :: url :: resource_type :: rest /\
      (resource_type = py "channel" \/ resource_type = py "blog" \/
       resource_type = py "website") /\
      db' = with_resources db
              (resources db ++
                 [{| r_id := next_id (map r_id (resources db)); r_name := name;
                     r_url := url; r_type := resource_type; r_created_at := now;
                     r_is_active := true |}]).
Proof.
  intros db now ADMIN_IDS user_id args db'. subst db'. unfold add_resource_command.
  destruct (rejected db ADMIN_IDS user_id) eqn:Hrej; [now left|].
  destruct args as [|name [|url [|resource_type rest]]]; try now left.
  destruct (existsb (PyStr.eqb resource_type) (map py ["channel"; "blog"; "website"]%string))
    eqn:Hkind; [|now left].
  right. split.
  - unfold rejected in Hrej. apply andb_false_iff in Hrej as [H | H];
      apply negb_false_iff in H.
    + now left.
    + right. apply existsb_exists in H as [t [Ht Heq]]. apply Z.eqb_eq in Heq. now subst.
  - exists name, url, resource_type, rest. split; [reflexivity|]. split; [|reflexivity].
    apply existsb_exists in Hkind as [k [Hk Heq]]. apply str_eqb_eq in Heq. subst k.
    simpl in Hk. destruct Hk as [<- | [<- | [<- | []]]]; auto.
Qed.

(** ** The keyword heuristic, continued *)

Lemma quotients_majority_true : quotients_majority = true.
Proof. vm_compute. reflexivity. Qed.

Lemma quotient_majority p n :
  (p <= List.length positive_keywords)%nat ->
  (n <= List.length negative_keywords)%nat ->
  (p + n =? 0)%nat = false ->
  (n <? p)%nat && (0 <? p)%nat
    = PrimFloat.ltb 0.5 (PrimFloat.div (float_of_nat p) (float_of_nat (p + n))) /\
  ((1 <= n)%nat ->
   PrimFloat.ltb (PrimFloat.div (float_of_nat p) (float_of_nat (p + n))) 1 = true).
Proof.
  intros Hp Hn Hpn. pose proof quotients_majority_true as H.
  unfold quotients_majority in H. rewrite forallb_forall in H.
  specialize (H p). rewrite forallb_forall in H.
  assert (Hin : In n (seq 0 (S (List.length negative_keywords)))) by (apply in_seq; lia).
  assert (Hip : In p (seq 0 (S (List.length positive_keywords)))) by (apply in_seq; lia).
  specialize (H Hip n Hin). rewrite Hpn in H. simpl in H.
  apply andb_true_iff in H as [Heq Hlt]. apply Bool.eqb_prop in Heq. split; [exact Heq|].
  intros Hn1. destruct (n =? 0)%nat eqn:E; [apply Nat.eqb_eq in E; lia | exact Hlt].
Qed.

Lemma contains_trans (k k' s : str) :
  contains k' k = true -> contains k s = true -> contains k' s = true.
Proof.
  rewrite !contains_spec. intros [a [b ->]] [pre [post ->]].
  exists (pre ++ a), (b ++ post). now rewrite <- !app_assoc.
Qed.

Lemma count_matches_pos keywords text keyword :
  In keyword keywords -> contains keyword text = true ->
  (1 <= count_matches keywords text)%nat.
Proof.
  intros Hin Hk. unfold count_matches.
  assert (H : In keyword (filter (fun k => contains k text) keywords))
    by (apply filter_In; now split).
  destruct (filter _ keywords); [contradiction | simpl; lia].
Qed.

Section KeywordFacts.

Context {case_map : CaseMap}.

(** X15. The verdict of the keyword heuristic is the comparison of its
    confidence with one half: a text is relevant exactly when the confidence
    returned is greater than 0.5 (the 0.3 of a text without keywords
    included). *)
Theorem keyword_verdict_is_majority :
  forall text,
    fst (_classify_with_keywords text)
    = PrimFloat.ltb 0.5 (snd (_classify_with_keywords text)).
Proof.
  intros text. rewrite _classify_with_keywords_eq. cbv zeta.
  destruct (_ + _ =? 0)%nat eqn:Htotal; [reflexivity|].
  cbn [fst snd]. apply quotient_majority; auto using count_matches_le.
Qed.

(** X16. Keywords are matched as substrings, and the negative keyword "art"
    occurs in the positive keyword "startup": a text that mentions
    "startup" always counts a match on both sides, so its confidence is
    below 1.0, and it is relevant only if it holds a second positive
    keyword. *)
Theorem startup_counts_against :
  forall text,
    contains (py "startup") (lower text) = true ->
    (1 <= count_matches positive_keywords (lower text))%nat /\
    (1 <= count_matches negative_keywords (lower text))%nat /\
    PrimFloat.ltb (snd (_classify_with_keywords text)) 1 = true /\
    (fst (_classify_with_keywords text) = true ->
     (2 <= count_matches positive_keywords (lower text))%nat).
Proof.
  intros text Hstartup.
  assert (Hp : (1 <= count_matches positive_keywords (lower text))%nat).
  { apply (count_matches_pos _ _ (py "startup")); [|exact Hstartup].
    unfold positive_keywords. apply in_map. simpl. auto. }
  assert (Hn : (1 <= count_matches negative_keywords (lower text))%nat).
  { apply (count_matches_pos _ _ (py "art")).
    - unfold negative_keywords. apply in_map. simpl. auto 10.
    - apply (contains_trans (py "startup")); [reflexivity | exact Hstartup]. }
  split; [exact Hp | split; [exact Hn|]].
  rewrite _classify_with_keywords_eq. cbv zeta.
  destruct (_ + _ =? 0)%nat eqn:Htotal; [apply Nat.eqb_eq in Htotal; lia|].
  cbn [fst snd]. split.
  - apply quotient_majority; auto using count_matches_le.
  - intros Hrel. apply andb_true_iff in Hrel as [Hlt _]. apply Nat.ltb_lt in Hlt. lia.
Qed.

End KeywordFacts.

(** Witness of X16, on a text whose only keywords are "startup" and
    "meetup". *)
Lemma startup_counts_against_witness :
  PrimFloat.ltb (snd (@_classify_with_keywords basic_case (py "Startup meetup in Kazan"))) 1
  = true.
Proof.
  apply (@startup_counts_against basic_case (py "Startup meetup in Kazan")).
  reflexivity.
Defined.

(** ** The remote service and the local model, case by case *)

Section BackendFacts.

Context {case_map : CaseMap}.
Variable pyfloat : str -> fallible float.
Variable post_generate : str -> fallible Response.

(** X17. What [_classify_with_ollama] does with a reply it cannot use. It
    answers with the keyword heuristic when the request raises, when the
    status is not 200, when the body is not JSON, not an object, or holds
    something other than a string under "response". A 200 reply without
    "response", however, is read as the empty answer and yields
    [(False, 0.1)], and any answer that does not start with "ДА" yields
    [False], whatever else it says: neither falls back. *)
Theorem ollama_unusable_reply :
  forall text,
    upper [] = [] ->
    let keywords := inr (_classify_with_keywords text) in
    let result := _classify_with_ollama pyfloat post_generate text in
    (forall e, post_generate text = inl e -> result = keywords) /\
    (forall r, post_generate text = inr r ->
       ((status_code r =? 200)%Z = false -> result = keywords) /\
       ((status_code r =? 200)%Z = true ->
          (forall e, response_json r = inl e -> result = keywords) /\
          (response_json r = inr JOther -> result = keywords) /\
          (response_json r = inr (JObject OtherMember) -> result = keywords) /\
          (response_json r = inr (JObject Absent) -> result = inr (false, 0.1%float)) /\
          (forall s, response_json r = inr (JObject (StringMember s)) ->
                     startswith (upper (PyStr.strip s)) (py "ДА") = false ->
                     exists confidence, result = inr (false, confidence)))).
Proof.
  intros text Hupper keywords result. subst keywords result.
  pose proof (_classify_with_ollama_cases pyfloat post_generate text) as H.
  unfold remote_answer in H.
  split.
  - intros e He. now rewrite He in H.
  - intros r Hr. rewrite Hr in H. split.
    + intros Hstatus. now rewrite Hstatus in H.
    + intros Hstatus. rewrite Hstatus in H. split; [|split; [|split; [|split]]].
      * intros e He. now rewrite He in H.
      * intros Hj. now rewrite Hj in H.
      * intros Hj. now rewrite Hj in H.
      * intros Hj. rewrite Hj in H. cbv zeta in H. cbn [get_response] in H.
        change (PyStr.strip []) with (@nil N) in H. cbv beta iota in H.
        rewrite H, Hupper. reflexivity.
      * intros s Hj Hno. rewrite Hj in H. cbn [get_response] in H. cbv beta iota zeta in H.
        rewrite H, Hno. eexists. reflexivity.
Qed.

(** X18. What [_classify_with_local_model] does with the pipeline's answer.
    It answers with the keyword heuristic when the pipeline raises or
    returns no label or no score. Otherwise the event is relevant exactly
    when the top label is one of the first two candidate labels, with the
    top score as confidence; for any other top label, a label the pipeline
    was not given included, it is not relevant, with 1.0 minus the top
    score. *)
Theorem local_model_answer :
  forall (model : pipeline) text,
    let keywords := inr (_classify_with_keywords text) in
    let result := _classify_with_local_model model text in
    (forall e, model text candidate_labels = inl e -> result = keywords) /\
    (forall scores, model text candidate_labels = inr ([], scores) -> result = keywords) /\
    (forall labels, model text candidate_labels = inr (labels, []) -> result = keywords) /\
    (forall top_label labels top_score scores,
       model text candidate_labels = inr (top_label :: labels, top_score :: scores) ->
       (In top_label (firstn 2 candidate_labels) -> result = inr (true, top_score)) /\
       (~ In top_label (firstn 2 candidate_labels) ->
        result = inr (false, (1 - top_score)%float))).
Proof.
  intros model text keywords result. subst keywords result.
  pose proof (_classify_with_local_model_cases model text) as H.
  unfold local_answer in H.
  split; [|split; [|split]].
  - intros e He. now rewrite He in H.
  - intros scores Hm. now rewrite Hm in H.
  - intros labels Hm. rewrite Hm in H. now destruct labels.
  - intros top_label labels top_score scores Hm. rewrite Hm in H. cbv zeta in H.
    assert (Hmem : existsb (PyStr.eqb top_label) (firstn 2 candidate_labels) = true <->
                   In top_label (firstn 2 candidate_labels)).
    { rewrite existsb_exists. split.
      - intros [x [Hx Heq]]. apply str_eqb_eq in Heq. now subst.
      - intros Hin. exists top_label. split; [exact Hin | apply str_eqb_refl]. }
    split.
    + intros Hin. apply Hmem in Hin. now rewrite Hin in H.
    + intros Hout.
      destruct (existsb (PyStr.eqb top_label) (firstn 2 candidate_labels)) eqn:E;
        [exfalso; apply Hout; now apply Hmem | exact H].
Qed.

End BackendFacts.

(** Witness of X17, on a reply with status 200 and no "response" member. *)
Lemma ollama_unusable_reply_witness :
  @_classify_with_ollama basic_case decimal_float post_no_response (py "Startup pitch")
  = inr (false, 0.1%float).
Proof.
  pose proof (@ollama_unusable_reply basic_case decimal_float post_no_response
                (py "Startup pitch") eq_refl) as H.
  cbv zeta in H. destruct H as [_ H].
  destruct (H _ eq_refl) as [_ H200]. destruct (H200 eq_refl) as (_ & _ & _ & Habsent & _).
  now apply Habsent.
Defined.

(** Witness of X18, on a model whose top label is the third candidate. *)
Lemma local_model_answer_witness :
  @_classify_with_local_model basic_case designers_model (py "UX review")
  = inr (false, 0.25%float).
Proof.
  pose proof (@local_model_answer basic_case designers_model (py "UX review")) as H.
  cbv zeta in H. destruct H as (_ & _ & _ & H).
  destruct (H _ _ _ _ eq_refl) as [_ Hout]. apply Hout.
  vm_compute. intros [H1 | [H1 | []]]; discriminate H1.
Defined.

(** Witness of X19, on a probe that answers 503 and a model that cannot be
    loaded. *)
Lemma unavailable_backends_fall_back_witness :
  @is_relevant_event basic_case decimal_float post_no_response
    (EventClassifier_init true (inr 503%Z) (inl "ImportError"%string))
    (Some (py "Startup pitch")) (py "")
  = inr (@_classify_with_keywords basic_case (py "Startup pitch. ")).
Proof.
  refine (eq_trans
            (@unavailable_backends_fall_back basic_case decimal_float post_no_response true
               (inr 503%Z) "ImportError"%string 83%N (tl (py "Startup pitch")) (py "") _)
            _).
  - right. intros code Hcode. injection Hcode as <-. discriminate.
  - reflexivity.
Defined.

(** ** The extractor, continued *)

Section ExtractorFacts.

Context {case_map : CaseMap}.
Variable pyfloat : str -> fallible float.
Variable post_generate : str -> fallible Response.
Variable self_classifier : EventClassifier.
Variable CLASSIFIER_CONFIDENCE_THRESHOLD : float.
Variable fetch : str -> fallible Soup.
Variable _extract_date : Soup -> fallible (option datetime).
Variable _extract_location : Soup -> fallible (option str).

(** X20. The title the loop over h1, h2, h3 and title settles on: the text
    of the first of these tags whose text holds an event keyword; when none
    does, the text of the last of them the page has (not of the first); and
    what it started with when the page has none of them. *)
Theorem find_title_first_keyword_else_last :
  forall soup tags title,
    let texts := present_titles soup tags in
    find_title soup tags title =
    match find (fun text => has_event_keywords (lower text)) texts with
    | Some text => Some text
    | None => match texts with
              | [] => title
              | _ :: _ => Some (last texts [])
              end
    end.
Proof.
  intros soup tags. induction tags as [|tag rest IH]; intros title; [reflexivity|].
  cbv zeta in *. unfold present_titles. simpl.
  destruct (soup_find soup tag) as [text|]; [|apply IH].
  simpl. destruct (has_event_keywords (lower (PyStr.strip text))) eqn:Hk; [reflexivity|].
  rewrite IH. fold (present_titles soup rest).
  destruct (find _ (present_titles soup rest)); [reflexivity|].
  now destruct (present_titles soup rest).
Qed.

Lemma find_description_length soup d :
  find_description soup = Some d -> (List.length d <= 500)%nat.
Proof.
  unfold find_description. cbv zeta.
  destruct (find _ _) as [t|].
  - intros H. assert (Hd : d = firstn 500 t) by congruence.
    rewrite Hd. apply firstn_le_length.
  - destruct (find _ _) as [t|]; [|discriminate].
    intros H. assert (Hd : d = firstn 500 t) by congruence.
    rewrite Hd. apply firstn_le_length.
Qed.

Lemma _extract_event_info_eq soup source_url :
  _extract_event_info _extract_date _extract_location soup source_url =
  match page_title soup with
  | Some (c :: t) =>
    match _extract_date soup with
    | inl e => inl e
    | inr None => inr None
    | inr (Some event_date) =>
      match _extract_location soup with
      | inl e => inl e
      | inr location =>
        inr (Some {| d_title := c :: t;
                     d_description := match find_description soup with
                                      | Some d => d
                                      | None => []
                                      end;
                     d_event_date := event_date;
                     d_location := location;
                     d_url := source_url |})
      end
    end
  | _ => inr None
  end.
Proof.
  unfold _extract_event_info, page_title. cbv zeta.
  destruct (if truthy _ then _ else _) as [[|c t]|]; try reflexivity.
  all: destruct (_extract_date soup) as [e|[event_date|]]; try reflexivity.
  all: destruct (_extract_location soup) as [e|location]; reflexivity.
Qed.

(** X21. [_extract_event_info] discards a page without a usable title
    before it looks for a date: it returns [None] whatever the date
    extraction would do, raising included. With a title, a page without a
    date is discarded too, and an exception of the date or the location
    extraction is passed on to the caller. *)
Theorem _extract_event_info_discards :
  forall soup source_url,
    let result := _extract_event_info _extract_date _extract_location soup source_url in
    (truthy (page_title soup) = false -> result = inr None) /\
    (truthy (page_title soup) = true ->
       (_extract_date soup = inr None -> result = inr None) /\
       (forall e, _extract_date soup = inl e -> result = inl e) /\
       (forall e date, _extract_date soup = inr (Some date) ->
                       _extract_location soup = inl e -> result = inl e)).
Proof.
  intros soup source_url result. subst result. rewrite _extract_event_info_eq.
  destruct (page_title soup) as [[|c t]|]; simpl; split; try discriminate; try reflexivity.
  intros _. split; [|split].
  - intros H. now rewrite H.
  - intros e H. now rewrite H.
  - intros e date Hd Hl. now rewrite Hd, Hl.
Qed.

(** X22. What [parse_resource] emits. A call returns at most one event, and
    only for the kinds 'blog' and 'website'. An event emitted carries the
    address of the resource, a title that is not empty and a description of
    at most 500 code points; its page was fetched and holds an event keyword,
    its date and location are what the two extractions returned, and the
    classifier judged its title and description relevant with a confidence
    of at least the threshold. *)
Theorem parse_resource_emits :
  forall resource_url resource_type events,
    parse_resource pyfloat post_generate self_classifier CLASSIFIER_CONFIDENCE_THRESHOLD
      fetch _extract_date _extract_location resource_url resource_type = inr events ->
    (List.length events <= 1)%nat /\
    forall event_data, In event_data events ->
      (resource_type = py "blog" \/ resource_type = py "website") /\
      d_url event_data = resource_url /\
      d_title event_data <> [] /\
      (List.length (d_description event_data) <= 500)%nat /\
      exists soup confidence,
        fetch resource_url = inr soup /\
        has_event_keywords (lower (soup_get_text soup)) = true /\
        _extract_date soup = inr (Some (d_event_date event_data)) /\
        _extract_location soup = inr (d_location event_data) /\
        is_relevant_event pyfloat post_generate self_classifier
          (Some (d_title event_data)) (d_description event_data)
        = inr (true, confidence) /\
        PrimFloat.leb CLASSIFIER_CONFIDENCE_THRESHOLD confidence = true.
Proof.
  intros resource_url resource_type events.
  assert (Hnone : forall P : RawEvent -> Prop,
            @inr exn _ (@nil RawEvent) = inr events ->
            (List.length events <= 1)%nat /\
            forall event_data, In event_data events -> P event_data).
  { intros P H. assert (Hev : events = []) by congruence. rewrite Hev.
    split; [simpl; lia | intros ? []]. }
  unfold parse_resource.
  destruct (PyStr.eqb resource_type (py "channel")) eqn:Hchannel; [apply Hnone|].
  destruct (existsb (PyStr.eqb resource_type) (map py ["blog"; "website"]%string)) eqn:Hkind;
    [|apply Hnone].
  assert (Hk : resource_type = py "blog" \/ resource_type = py "website").
  { apply existsb_exists in Hkind as [k [Hk Heq]]. apply str_eqb_eq in Heq. subst k.
    simpl in Hk. destruct Hk as [<- | [<- | []]]; auto. }
  unfold _parse_website, _parse_website_try.
  destruct (fetch resource_url) as [e|soup] eqn:Hfetch; [apply Hnone|].
  cbn -[is_relevant_event has_event_keywords _extract_event_info].
  destruct (has_event_keywords (lower (soup_get_text soup))) eqn:Hkeywords; [|apply Hnone].
  rewrite _extract_event_info_eq.
  destruct (page_title soup) as [[|c t]|]; try apply Hnone.
  destruct (_extract_date soup) as [e|[event_date|]] eqn:Hdate; try apply Hnone.
  destruct (_extract_location soup) as [e|location] eqn:Hlocation; [apply Hnone|].
  cbn -[is_relevant_event has_event_keywords find_description].
  remember (match find_description soup with Some d => d | None => [] end)
    as description eqn:Hdescription.
  destruct (is_relevant_event pyfloat post_generate self_classifier (@Some str (c :: t))
              description) as [e|[is_relevant confidence]] eqn:Hverdict;
    [apply Hnone|].
  cbn -[is_relevant_event has_event_keywords find_description].
  destruct (is_relevant && PrimFloat.leb CLASSIFIER_CONFIDENCE_THRESHOLD confidence)
    eqn:Hpass; [|apply Hnone].
  apply andb_true_iff in Hpass as [Hrel Hthreshold]. subst is_relevant.
  intros Hcall. assert (Hev : events = [{| d_title := c :: t; d_description := description;
                                           d_event_date := event_date;
                                           d_location := location;
                                           d_url := resource_url |}]) by congruence.
  rewrite Hev. split; [simpl; lia|].
  intros event_data [<- | []]. cbn [d_url d_title d_description d_event_date d_location].
  split; [exact Hk|]. split; [reflexivity|]. split; [discriminate|]. split.
  - rewrite Hdescription. destruct (find_description soup) as [d|] eqn:Hd.
    + now apply (find_description_length soup).
    + simpl. lia.
  - exists soup, confidence. repeat split; assumption.
Qed.

End ExtractorFacts.

(** Witness of X22, on the page of a blog that announces a meetup, judged by
    the keyword heuristic against a threshold of 0.6. *)
Lemma parse_resource_emits_witness :
  @parse_resource basic_case decimal_float post_unreachable keyword_classifier 0.6%float
    sample_fetch sample_date sample_location (py "https://blog.example") (py "blog")
  = inr [ {| d_title := py "Business networking meetup"; d_description := [];
             d_event_date := 1805000000000000; d_location := None;
             d_url := py "https://blog.example" |} ] /\
  exists confidence,
    @is_relevant_event basic_case decimal_float post_unreachable keyword_classifier
      (Some (py "Business networking meetup")) [] = inr (true, confidence) /\
    PrimFloat.leb 0.6 confidence = true.
Proof.
  assert (Hcall :
    @parse_resource basic_case decimal_float post_unreachable keyword_classifier 0.6%float
      sample_fetch sample_date sample_location (py "https://blog.example") (py "blog")
    = inr [ {| d_title := py "Business networking meetup"; d_description := [];
               d_event_date := 1805000000000000; d_location := None;
               d_url := py "https://blog.example" |} ])
    by (vm_compute; reflexivity).
  split; [exact Hcall|].
  destruct (@parse_resource_emits basic_case decimal_float post_unreachable
              keyword_classifier 0.6%float sample_fetch sample_date sample_location
              _ _ _ Hcall) as [_ Hevent].
  destruct (Hevent _ (or_introl eq_refl))
    as (_ & _ & _ & _ & soup & confidence & _ & _ & _ & _ & Hrelevant & Hthreshold).
  exists confidence. split; [exact Hrelevant | exact Hthreshold].
Defined.
